(** * Student Data Risk Mapper: the risk-scoring engine

    A shallow embedding of [app/services/scoring.py] together with the
    [AssessmentAnswers] schema of [app/schemas/assessment.py], and the
    properties of the scoring engine proved over it.

    Python integers are modelled as [Z], [str] as [string], [list] as
    [list], the two module-level dictionaries as [gmap string _].  A dict
    subscript [d[k]] raises [KeyError] on a missing key, so the scorers
    live in an error monad; the locals [score] and [reasons] that every
    scorer mutates are threaded through a small state monad on top. *)

From Stdlib Require Import ZArith String List Lia Permutation Sorted.
From stdpp Require Import base gmap strings list.
Import ListNotations.

Local Open Scope string_scope.
Local Open Scope Z_scope.
Local Open Scope list_scope.

(** ** Data model *)

(** [class AssessmentAnswers(BaseModel)].  The [Literal] annotations of the
    schema are enforced by pydantic only when the model is built through
    validation; the scoring module reads the attributes as plain strings, so
    the fields are strings here. *)
Record AssessmentAnswers : Type := {
  data_types : list string;
  data_types_unknown : bool;
  storage_location : string;
  data_region : string;
  subprocessors_disclosed : string;
  retention_policy_stated : string;
  deletion_process : string;
  sso_supported : string;
  mfa_available : string;
  rbac_available : string;
  encryption_transit : string;
  encryption_rest : string;
  audit_logs_available : string;
  third_party_sharing : string;
  used_for_advertising : string;
  used_for_ai_training : string;
  data_sold : string;
  integration_types : list string;
  integration_method : string;
  integration_frequency : string;
  sis_writeback : string
}.

(** [AssessmentAnswers()]: every field at its declared default. *)
Definition default_answers : AssessmentAnswers := {|
  data_types := [];
  data_types_unknown := false;
  storage_location := "unknown";
  data_region := "unknown";
  subprocessors_disclosed := "unknown";
  retention_policy_stated := "unknown";
  deletion_process := "unknown";
  sso_supported := "unknown";
  mfa_available := "unknown";
  rbac_available := "unknown";
  encryption_transit := "unknown";
  encryption_rest := "unknown";
  audit_logs_available := "unknown";
  third_party_sharing := "unknown";
  used_for_advertising := "unknown";
  used_for_ai_training := "unknown";
  data_sold := "unknown";
  integration_types := [];
  integration_method := "unknown";
  integration_frequency := "unknown";
  sis_writeback := "unknown"
|}.

(** [AssessmentAnswers(data_types=ks, data_types_unknown=unknown)]: the
    other fields at their defaults. *)
Definition answers_with_data_types (ks : list string) (unknown : bool)
  : AssessmentAnswers := {|
  data_types := ks;
  data_types_unknown := unknown;
  storage_location := "unknown";
  data_region := "unknown";
  subprocessors_disclosed := "unknown";
  retention_policy_stated := "unknown";
  deletion_process := "unknown";
  sso_supported := "unknown";
  mfa_available := "unknown";
  rbac_available := "unknown";
  encryption_transit := "unknown";
  encryption_rest := "unknown";
  audit_logs_available := "unknown";
  third_party_sharing := "unknown";
  used_for_advertising := "unknown";
  used_for_ai_training := "unknown";
  data_sold := "unknown";
  integration_types := [];
  integration_method := "unknown";
  integration_frequency := "unknown";
  sis_writeback := "unknown"
|}.

(** The vocabularies the schema declares with [Literal]. *)
Definition StorageLocation : list string := ["vendor_cloud"; "district"; "both"; "unknown"].
Definition DataRegion : list string := ["us_only"; "eu"; "global"; "unknown"].
Definition YesNoUnknown : list string := ["yes"; "no"; "unknown"].
Definition SSOOption : list string := ["entra"; "google"; "other"; "none"; "unknown"].
Definition DeletionProcess : list string := ["self_serve"; "support_ticket"; "no"; "unknown"].
Definition IntegrationMethod : list string := ["oauth"; "api_key"; "csv_manual"; "unknown"].
Definition IntegrationFrequency : list string := ["realtime"; "nightly"; "adhoc"; "unknown"].

(** The single-valued fields of [AssessmentAnswers]. *)
Inductive Field : Type :=
| F_storage_location | F_data_region | F_subprocessors_disclosed
| F_retention_policy_stated | F_deletion_process
| F_sso_supported | F_mfa_available | F_rbac_available
| F_encryption_transit | F_encryption_rest | F_audit_logs_available
| F_third_party_sharing | F_used_for_advertising | F_used_for_ai_training | F_data_sold
| F_integration_method | F_integration_frequency | F_sis_writeback.

(** The vocabulary the schema declares for each field. *)
Definition vocabulary (f : Field) : list string :=
  match f with
  | F_storage_location => StorageLocation
  | F_data_region => DataRegion
  | F_deletion_process => DeletionProcess
  | F_sso_supported => SSOOption
  | F_integration_method => IntegrationMethod
  | F_integration_frequency => IntegrationFrequency
  | _ => YesNoUnknown
  end.

(** [answers.model_copy(update={f: v})]: [a] with the field [f] holding [v]. *)
Definition set_field (f : Field) (v : string) (a : AssessmentAnswers) : AssessmentAnswers := {|
  data_types := data_types a;
  data_types_unknown := data_types_unknown a;
  storage_location := match f with F_storage_location => v | _ => storage_location a end;
  data_region := match f with F_data_region => v | _ => data_region a end;
  subprocessors_disclosed :=
    match f with F_subprocessors_disclosed => v | _ => subprocessors_disclosed a end;
  retention_policy_stated :=
    match f with F_retention_policy_stated => v | _ => retention_policy_stated a end;
  deletion_process := match f with F_deletion_process => v | _ => deletion_process a end;
  sso_supported := match f with F_sso_supported => v | _ => sso_supported a end;
  mfa_available := match f with F_mfa_available => v | _ => mfa_available a end;
  rbac_available := match f with F_rbac_available => v | _ => rbac_available a end;
  encryption_transit := match f with F_encryption_transit => v | _ => encryption_transit a end;
  encryption_rest := match f with F_encryption_rest => v | _ => encryption_rest a end;
  audit_logs_available :=
    match f with F_audit_logs_available => v | _ => audit_logs_available a end;
  third_party_sharing := match f with F_third_party_sharing => v | _ => third_party_sharing a end;
  used_for_advertising :=
    match f with F_used_for_advertising => v | _ => used_for_advertising a end;
  used_for_ai_training :=
    match f with F_used_for_ai_training => v | _ => used_for_ai_training a end;
  data_sold := match f with F_data_sold => v | _ => data_sold a end;
  integration_types := integration_types a;
  integration_method := match f with F_integration_method => v | _ => integration_method a end;
  integration_frequency :=
    match f with F_integration_frequency => v | _ => integration_frequency a end;
  sis_writeback := match f with F_sis_writeback => v | _ => sis_writeback a end
|}.

(** [answers.model_copy(update={"data_types": ks})]. *)
Definition set_data_types (ks : list string) (a : AssessmentAnswers) : AssessmentAnswers := {|
  data_types := ks;
  data_types_unknown := data_types_unknown a;
  storage_location := storage_location a;
  data_region := data_region a;
  subprocessors_disclosed := subprocessors_disclosed a;
  retention_policy_stated := retention_policy_stated a;
  deletion_process := deletion_process a;
  sso_supported := sso_supported a;
  mfa_available := mfa_available a;
  rbac_available := rbac_available a;
  encryption_transit := encryption_transit a;
  encryption_rest := encryption_rest a;
  audit_logs_available := audit_logs_available a;
  third_party_sharing := third_party_sharing a;
  used_for_advertising := used_for_advertising a;
  used_for_ai_training := used_for_ai_training a;
  data_sold := data_sold a;
  integration_types := integration_types a;
  integration_method := integration_method a;
  integration_frequency := integration_frequency a;
  sis_writeback := sis_writeback a
|}.

(** [answers.model_copy(update={"integration_types": ts})]. *)
Definition set_integration_types (ts : list string) (a : AssessmentAnswers) : AssessmentAnswers := {|
  data_types := data_types a;
  data_types_unknown := data_types_unknown a;
  storage_location := storage_location a;
  data_region := data_region a;
  subprocessors_disclosed := subprocessors_disclosed a;
  retention_policy_stated := retention_policy_stated a;
  deletion_process := deletion_process a;
  sso_supported := sso_supported a;
  mfa_available := mfa_available a;
  rbac_available := rbac_available a;
  encryption_transit := encryption_transit a;
  encryption_rest := encryption_rest a;
  audit_logs_available := audit_logs_available a;
  third_party_sharing := third_party_sharing a;
  used_for_advertising := used_for_advertising a;
  used_for_ai_training := used_for_ai_training a;
  data_sold := data_sold a;
  integration_types := ts;
  integration_method := integration_method a;
  integration_frequency := integration_frequency a;
  sis_writeback := sis_writeback a
|}.

(** [@dataclass class ReasonCode]. *)
Record ReasonCode : Type := mkReasonCode {
  code : string;
  explanation : string;
  category : string;
  points : Z
}.

(** [@dataclass class ScoreResult]. *)
Record ScoreResult : Type := mkScoreResult {
  total : Z;
  breakdown : gmap string Z;
  reason_codes : list ReasonCode;
  risk_tier : string
}.

(** ** The module-level tables *)

Definition DATA_TYPE_POINTS : gmap string Z :=
  list_to_map [
    ("iep_504", 8);
    ("health", 8);
    ("behavioral_sel", 7);
    ("biometrics", 8);
    ("precise_location", 7);
    ("discipline", 6);
    ("photos_video_audio", 4);
    ("staff_notes", 4);
    ("academic_records", 3);
    ("attendance_discipline", 3);
    ("directory_info", 2);
    ("contact_info", 2);
    ("auth_identifiers", 1);
    ("device_identifiers", 1)
  ].

Definition REASON_TEMPLATES : gmap string string :=
  list_to_map [
    ("SENS-IEP", "System handles IEP/504 data, which is highly sensitive under FERPA and IDEA.");
    ("SENS-HEALTH", "System collects health data, protected under FERPA and potentially HIPAA.");
    ("SENS-BEHAV", "System stores behavioral/SEL data, which can be stigmatizing if mishandled.");
    ("SENS-BIO", "System uses biometric data, requiring special consent and protections.");
    ("SENS-LOC", "System tracks precise student location, raising significant privacy concerns.");
    ("SENS-DISC", "System contains discipline records, which are sensitive under FERPA.");
    ("SENS-MEDIA", "System stores student photos, video, or audio recordings.");
    ("SENS-UNK", "Data types collected are unknown, adding uncertainty to risk assessment.");
    ("EXPO-SHARE", "Vendor indicates data is shared with third parties.");
    ("EXPO-ADS", "Data may be used for advertising or marketing purposes.");
    ("EXPO-AI", "Data may be used to train AI models.");
    ("EXPO-SOLD", "Vendor indicates data may be sold or monetized.");
    ("EXPO-SUBP", "Subprocessors are not disclosed, creating unknown exposure.");
    ("EXPO-GLOBAL", "Data may be stored or processed outside the US.");
    ("EXPO-BOTH", "Data stored in both vendor cloud and district systems increases exposure.");
    ("CTRL-NOSSO", "SSO is not supported or status is unknown.");
    ("CTRL-NOMFA", "Admin MFA is not available or unknown.");
    ("CTRL-NORBAC", "Role-based access controls are not available or unknown.");
    ("CTRL-NOTRANS", "Encryption in transit is not confirmed.");
    ("CTRL-NOREST", "Encryption at rest is not confirmed.");
    ("CTRL-NOAUDIT", "Audit logs are not available or unknown.");
    ("POST-RETUNK", "Retention policy is missing or unknown.");
    ("POST-DELUNK", "Data deletion process is unclear or requires manual support.");
    ("POST-NODEL", "No clear process exists for data deletion.");
    ("INT-APIKEY", "Integration uses API keys, increasing blast radius if exposed.");
    ("INT-REALTIME", "Real-time data sync increases potential impact of breaches.");
    ("INT-SISWB", "System writes data back to SIS, amplifying integration risk.");
    ("INT-MULTI", "Multiple integration types increase attack surface.")
  ].

(** ** Python effects: exceptions and mutable locals *)

(** The outcome of a call: a returned value, or a [KeyError] carrying the
    missing key. *)
Inductive PyResult (A : Type) : Type :=
| Returned (a : A)
| KeyError (key : string).
Arguments Returned {A} a.
Arguments KeyError {A} key.

#[global] Instance PyResult_ret : MRet PyResult := fun A a => Returned a.
#[global] Instance PyResult_bind : MBind PyResult := fun A B f m =>
  match m with
  | Returned a => f a
  | KeyError k => KeyError k
  end.

(** [d.get(k, default)]. *)
Definition dict_get {V : Type} (d : gmap string V) (k : string) (dflt : V) : V :=
  default dflt (d !! k).

(** [d[k]]. *)
Definition dict_subscript {V : Type} (d : gmap string V) (k : string) : PyResult V :=
  match d !! k with
  | Some v => Returned v
  | None => KeyError k
  end.

(** The two locals every category scorer starts with, [score = 0] and
    [reasons = []], and mutates as it goes. *)
Record Locals : Type := mkLocals {
  score : Z;
  reasons : list ReasonCode
}.

Definition Scorer (A : Type) : Type := Locals -> PyResult (A * Locals).

#[global] Instance Scorer_ret : MRet Scorer := fun A a st => Returned (a, st).
#[global] Instance Scorer_bind : MBind Scorer := fun A B f m st =>
  match m st with
  | Returned (a, st') => f a st'
  | KeyError k => KeyError k
  end.

(** [pass], the empty [else]. *)
Definition pass : Scorer unit := mret tt.

(** [score += n]. *)
Definition add_score (n : Z) : Scorer unit := fun st =>
  Returned (tt, {| score := score st + n; reasons := reasons st |}).

(** [reasons.append(ReasonCode(c, REASON_TEMPLATES[c], cat, pts))]: the
    subscript is evaluated while the arguments are, and may raise. *)
Definition append_reason (c cat : string) (pts : Z) : Scorer unit := fun st =>
  match dict_subscript REASON_TEMPLATES c with
  | Returned expl =>
      Returned (tt, {| score := score st;
                       reasons := reasons st ++ [mkReasonCode c expl cat pts] |})
  | KeyError k => KeyError k
  end.

(** [for x in xs: body]. *)
Fixpoint for_each {A : Type} (xs : list A) (body : A -> Scorer unit) : Scorer unit :=
  match xs with
  | [] => pass
  | x :: xs' => body x ;; for_each xs' body
  end.

(** A scorer's frame: the locals are initialised, the body runs, and
    [return min(score, cap), reasons] ends it. *)
Definition scorer_body (cap : Z) (body : Scorer unit) : PyResult (Z * list ReasonCode) :=
  match body {| score := 0; reasons := [] |} with
  | Returned (_, st) => Returned (Z.min (score st) cap, reasons st)
  | KeyError k => KeyError k
  end.

(** [a == b] and [a != b] on strings. *)
Notation "a == b" := (String.eqb a b) (at level 70, no associativity).
Notation "a != b" := (negb (String.eqb a b)) (at level 70, no associativity).

(** [v in (a, b, ...)] on strings. *)
Definition str_in (v : string) (vs : list string) : bool :=
  existsb (String.eqb v) vs.

(** ** The tier mapper *)

Definition determine_risk_tier (score : Z) : string :=
  if (score <=? 25)%Z then "Low"
  else if (score <=? 50)%Z then "Moderate"
  else if (score <=? 75)%Z then "High"
  else "Critical".

(** ** The five category scorers *)

Definition calculate_sensitivity_score (answers : AssessmentAnswers)
  : PyResult (Z * list ReasonCode) :=
  scorer_body 30 (
    if data_types_unknown answers then
      add_score 10 ;;
      append_reason "SENS-UNK" "sensitivity" 10
    else
      for_each (data_types answers) (fun data_type =>
        let points := dict_get DATA_TYPE_POINTS data_type 0 in
        add_score points ;;
        if data_type == "iep_504" then
          append_reason "SENS-IEP" "sensitivity" points
        else if data_type == "health" then
          append_reason "SENS-HEALTH" "sensitivity" points
        else if data_type == "behavioral_sel" then
          append_reason "SENS-BEHAV" "sensitivity" points
        else if data_type == "biometrics" then
          append_reason "SENS-BIO" "sensitivity" points
        else if data_type == "precise_location" then
          append_reason "SENS-LOC" "sensitivity" points
        else if (data_type == "discipline") || (data_type == "attendance_discipline") then
          append_reason "SENS-DISC" "sensitivity" points
        else if data_type == "photos_video_audio" then
          append_reason "SENS-MEDIA" "sensitivity" points
        else pass)).

Definition calculate_exposure_score (answers : AssessmentAnswers)
  : PyResult (Z * list ReasonCode) :=
  scorer_body 25 (
    (if third_party_sharing answers == "yes" then
       add_score 6 ;; append_reason "EXPO-SHARE" "exposure" 6
     else if third_party_sharing answers == "unknown" then
       add_score 4
     else pass) ;;
    (if used_for_advertising answers == "yes" then
       add_score 5 ;; append_reason "EXPO-ADS" "exposure" 5
     else if used_for_advertising answers == "unknown" then
       add_score 3
     else pass) ;;
    (if used_for_ai_training answers == "yes" then
       add_score 4 ;; append_reason "EXPO-AI" "exposure" 4
     else if used_for_ai_training answers == "unknown" then
       add_score 2
     else pass) ;;
    (if data_sold answers == "yes" then
       add_score 6 ;; append_reason "EXPO-SOLD" "exposure" 6
     else if data_sold answers == "unknown" then
       add_score 4
     else pass) ;;
    (if subprocessors_disclosed answers == "no" then
       add_score 4 ;; append_reason "EXPO-SUBP" "exposure" 4
     else if subprocessors_disclosed answers == "unknown" then
       add_score 3 ;; append_reason "EXPO-SUBP" "exposure" 3
     else pass) ;;
    (if data_region answers == "global" then
       add_score 3 ;; append_reason "EXPO-GLOBAL" "exposure" 3
     else if data_region answers == "unknown" then
       add_score 2
     else pass) ;;
    (if storage_location answers == "both" then
       add_score 2 ;; append_reason "EXPO-BOTH" "exposure" 2
     else if storage_location answers == "unknown" then
       add_score 2
     else pass)).

Definition calculate_security_score (answers : AssessmentAnswers)
  : PyResult (Z * list ReasonCode) :=
  scorer_body 20 (
    (if str_in (sso_supported answers) ["none"; "unknown"] then
       add_score 4 ;; append_reason "CTRL-NOSSO" "security" 4
     else pass) ;;
    (if mfa_available answers != "yes" then
       add_score 4 ;; append_reason "CTRL-NOMFA" "security" 4
     else pass) ;;
    (if rbac_available answers != "yes" then
       add_score 3 ;; append_reason "CTRL-NORBAC" "security" 3
     else pass) ;;
    (if encryption_transit answers != "yes" then
       add_score 3 ;; append_reason "CTRL-NOTRANS" "security" 3
     else pass) ;;
    (if encryption_rest answers != "yes" then
       add_score 3 ;; append_reason "CTRL-NOREST" "security" 3
     else pass) ;;
    (if audit_logs_available answers != "yes" then
       add_score 3 ;; append_reason "CTRL-NOAUDIT" "security" 3
     else pass)).

Definition calculate_posture_score (answers : AssessmentAnswers)
  : PyResult (Z * list ReasonCode) :=
  scorer_body 15 (
    (if retention_policy_stated answers != "yes" then
       add_score 6 ;; append_reason "POST-RETUNK" "posture" 6
     else pass) ;;
    (if deletion_process answers == "no" then
       add_score 6 ;; append_reason "POST-NODEL" "posture" 6
     else if deletion_process answers == "unknown" then
       add_score 5 ;; append_reason "POST-DELUNK" "posture" 5
     else if deletion_process answers == "support_ticket" then
       add_score 3 ;; append_reason "POST-DELUNK" "posture" 3
     else pass)).

Definition calculate_integration_score (answers : AssessmentAnswers)
  : PyResult (Z * list ReasonCode) :=
  scorer_body 10 (
    (if integration_method answers == "api_key" then
       add_score 3 ;; append_reason "INT-APIKEY" "integration" 3
     else if integration_method answers == "unknown" then
       add_score 2
     else pass) ;;
    (if integration_frequency answers == "realtime" then
       add_score 3 ;; append_reason "INT-REALTIME" "integration" 3
     else if integration_frequency answers == "unknown" then
       add_score 1
     else pass) ;;
    (if sis_writeback answers == "yes" then
       add_score 3 ;; append_reason "INT-SISWB" "integration" 3
     else if sis_writeback answers == "unknown" then
       add_score 2
     else pass) ;;
    (if (3 <=? Z.of_nat (length (integration_types answers)))%Z then
       add_score 2 ;; append_reason "INT-MULTI" "integration" 2
     else pass)).

(** ** The combiner *)

(** [xs.sort(key=key, reverse=True)].  The builtin is a stable sort, and
    [reverse=True] keeps it stable: the result is in non-increasing key
    order and elements with equal keys keep their original relative
    order.  The model is the insertion sort with that contract;
    [sort_key_reverse_unique] below shows that the contract leaves no
    other result, so nothing depends on the algorithm chosen. *)
Fixpoint insert_key_reverse {A : Type} (key : A -> Z) (x : A) (xs : list A) : list A :=
  match xs with
  | [] => [x]
  | y :: xs' =>
      if (key x <? key y)%Z then y :: insert_key_reverse key x xs'
      else x :: xs
  end.

Fixpoint sort_key_reverse {A : Type} (key : A -> Z) (xs : list A) : list A :=
  match xs with
  | [] => []
  | x :: xs' => insert_key_reverse key x (sort_key_reverse key xs')
  end.

Definition calculate_risk_score (answers : AssessmentAnswers) : PyResult ScoreResult :=
  '(sens_score, sens_reasons) ← calculate_sensitivity_score answers;
  '(expo_score, expo_reasons) ← calculate_exposure_score answers;
  '(sec_score, sec_reasons) ← calculate_security_score answers;
  '(post_score, post_reasons) ← calculate_posture_score answers;
  '(int_score, int_reasons) ← calculate_integration_score answers;
  let total := sens_score + expo_score + sec_score + post_score + int_score in
  let total := Z.min total 100 in
  let breakdown : gmap string Z :=
    list_to_map [
      ("sensitivity", sens_score);
      ("exposure", expo_score);
      ("security_controls", sec_score);
      ("vendor_posture", post_score);
      ("integration_blast_radius", int_score)
    ] in
  let all_reasons :=
    sens_reasons ++ expo_reasons ++ sec_reasons ++ post_reasons ++ int_reasons in
  let all_reasons := sort_key_reverse points all_reasons in
  mret {| total := total;
          breakdown := breakdown;
          reason_codes := all_reasons;
          risk_tier := determine_risk_tier total |}.

(** * Specification

    The definitions the properties are stated with. *)

(** ** What a scorer does to its locals *)

(** The reason code the engine builds for code [c]: the explanation is the
    catalogue's text for [c]. *)
Definition reason_for (c cat : string) (pts : Z) : ReasonCode :=
  {| code := c; explanation := dict_get REASON_TEMPLATES c ""; category := cat; points := pts |}.

(** [adds m d rs]: whatever the locals are, running [m] raises nothing,
    increases [score] by [d] and extends [reasons] by [rs]. *)
Definition adds (m : Scorer unit) (d : Z) (rs : list ReasonCode) : Prop :=
  forall st, m st = Returned (tt, {| score := score st + d; reasons := reasons st ++ rs |}).

(** [well_behaved m]: [m] raises nothing, adds a non-negative amount to
    [score], and every reason code it appends carries at least one point. *)
Definition well_behaved (m : Scorer unit) : Prop :=
  exists d rs, adds m d rs /\ 0 <= d /\ Forall (fun r => 1 <= points r) rs.

(** What a well-behaved body gives its scorer: a returned pair whose score
    lies between 0 and the cap, and whose reason codes all carry points. *)
Definition bounded_result (cap : Z) (res : PyResult (Z * list ReasonCode)) : Prop :=
  exists s rs, res = Returned (s, rs) /\ 0 <= s <= cap /\ Forall (fun r => 1 <= points r) rs.

(** [returns_score res s]: the scorer call [res] returned, with sub-score [s]. *)
Definition returns_score (res : PyResult (Z * list ReasonCode)) (s : Z) : Prop :=
  exists rs, res = Returned (s, rs).

(** [returns_reasons res rs]: the scorer call [res] returned, with reason list [rs]. *)
Definition returns_reasons (res : PyResult (Z * list ReasonCode)) (rs : list ReasonCode) : Prop :=
  exists s, res = Returned (s, rs).

(** [reasons_carry_points res]: the scorer call [res] returned, and every
    reason code it returned has at least one point. *)
Definition reasons_carry_points (res : PyResult (Z * list ReasonCode)) : Prop :=
  exists s rs, res = Returned (s, rs) /\ Forall (fun rc => 1 <= points rc) rs.

(** ** Sorted, stable rearrangements *)

(** [x] may stand before [y] in a list sorted by key, highest first. *)
Definition key_ge {A : Type} (key : A -> Z) (x y : A) : Prop := key y <= key x.

(** The elements of [xs] whose key is [p], in the order [xs] has them. *)
Definition with_key {A : Type} (key : A -> Z) (p : Z) (xs : list A) : list A :=
  filter (fun x => key x = p) xs.

(** [ys] holds the elements of [xs] and has not reordered any two of
    equal key. *)
Definition stable_rearrangement {A : Type} (key : A -> Z) (xs ys : list A) : Prop :=
  forall p, with_key key p ys = with_key key p xs.

(** ** Tables as the specification words them *)

(** The value listed for key [k] in a table of rows, the first such row. *)
Fixpoint assoc {V : Type} (k : string) (t : list (string * V)) : option V :=
  match t with
  | [] => None
  | (k', v) :: t' => if k == k' then Some v else assoc k t'
  end.

(** ** Sensitivity, as the specification words it *)

(** The points of each data-type key; a key that is not listed has 0. *)
Definition sensitivity_points_table : list (string * Z) :=
  [("iep_504", 8); ("health", 8); ("biometrics", 8);
   ("behavioral_sel", 7); ("precise_location", 7); ("discipline", 6);
   ("photos_video_audio", 4); ("staff_notes", 4);
   ("academic_records", 3); ("attendance_discipline", 3);
   ("directory_info", 2); ("contact_info", 2);
   ("auth_identifiers", 1); ("device_identifiers", 1)].

(** The reason code of each reason-coded data-type key; [discipline] and
    [attendance_discipline] share one, and the low-sensitivity keys,
    [staff_notes] and [academic_records] have none. *)
Definition sensitivity_code_table : list (string * string) :=
  [("iep_504", "SENS-IEP"); ("health", "SENS-HEALTH");
   ("behavioral_sel", "SENS-BEHAV"); ("biometrics", "SENS-BIO");
   ("precise_location", "SENS-LOC");
   ("discipline", "SENS-DISC"); ("attendance_discipline", "SENS-DISC");
   ("photos_video_audio", "SENS-MEDIA")].

Definition sensitivity_points (k : string) : Z :=
  default 0 (assoc k sensitivity_points_table).

(** The reason codes one entry [k] of [data_types] accounts for. *)
Definition sensitivity_reasons (k : string) : list ReasonCode :=
  match assoc k sensitivity_code_table with
  | Some c => [reason_for c "sensitivity" (sensitivity_points k)]
  | None => []
  end.

Definition sum_sensitivity_points (ks : list string) : Z :=
  foldr (fun k acc => sensitivity_points k + acc) 0 ks.

#[global] Instance ReasonCode_eq_dec : EqDecision ReasonCode.
Proof. solve_decision. Defined.

(** How many of the reason codes [rs] are the one category [k] emits. *)
Definition reasons_of_category (k : string) (rs : list ReasonCode) : nat :=
  length (filter (fun r => r ∈ sensitivity_reasons k) rs).

(** One reason code per category, as opposed to one per occurrence: every
    reason-coded category among [ks] has exactly one reason code in [rs]. *)
Definition one_reason_per_category (ks : list string) (rs : list ReasonCode) : Prop :=
  forall k, k ∈ ks -> sensitivity_reasons k <> [] -> reasons_of_category k rs = 1%nat.

(** [AssessmentAnswers(data_types=["iep_504", "iep_504"])]. *)
Definition repeated_iep_answers : AssessmentAnswers :=
  answers_with_data_types ["iep_504"; "iep_504"] false.

(** ** Per-field policies, as the specification words them *)

(** One row of a field's policy: the answer, the points it adds, and the
    reason code it emits if it emits one. *)
Definition PolicyRow : Type := string * Z * option string.

(** What the answer [v] to one field contributes under the rows [rows]:
    the points and reason code of the row listing [v], and nothing for an
    answer that no row lists.  An emitted reason code carries the points of
    its row. *)
Fixpoint field_contribution (cat : string) (rows : list PolicyRow) (v : string)
  : Z * list ReasonCode :=
  match rows with
  | [] => (0, [])
  | (answer, pts, emitted) :: rows' =>
      if v == answer then
        (pts, match emitted with
              | Some c => [reason_for c cat pts]
              | None => []
              end)
      else field_contribution cat rows' v
  end.

(** The independent per-field sum: the fields' points added up and their
    reason codes in the order of the fields. *)
Definition independent_sum (cat : string)
    (policy : list ((AssessmentAnswers -> string) * list PolicyRow))
    (a : AssessmentAnswers) : Z * list ReasonCode :=
  foldr (fun '(field, rows) acc =>
           let c := field_contribution cat rows (field a) in
           (c.1 + acc.1, c.2 ++ acc.2))
        (0, []) policy.

Definition clamp_to (cap : Z) (res : Z * list ReasonCode) : Z * list ReasonCode :=
  (Z.min res.1 cap, res.2).

(** The exposure policy. *)
Definition exposure_policy : list ((AssessmentAnswers -> string) * list PolicyRow) :=
  [(third_party_sharing,     [("yes", 6, Some "EXPO-SHARE");     ("unknown", 4, None)]);
   (used_for_advertising,    [("yes", 5, Some "EXPO-ADS");       ("unknown", 3, None)]);
   (used_for_ai_training,    [("yes", 4, Some "EXPO-AI");        ("unknown", 2, None)]);
   (data_sold,               [("yes", 6, Some "EXPO-SOLD");      ("unknown", 4, None)]);
   (subprocessors_disclosed, [("no", 4, Some "EXPO-SUBP");       ("unknown", 3, Some "EXPO-SUBP")]);
   (data_region,             [("global", 3, Some "EXPO-GLOBAL"); ("unknown", 2, None)]);
   (storage_location,        [("both", 2, Some "EXPO-BOTH");     ("unknown", 2, None)])].

Definition exposure_spec (a : AssessmentAnswers) : Z * list ReasonCode :=
  clamp_to 25 (independent_sum "exposure" exposure_policy a).

(** The deletion policy and the retention rule of the vendor-posture
    scorer. *)
Definition deletion_policy : list PolicyRow :=
  [("no", 6, Some "POST-NODEL");
   ("unknown", 5, Some "POST-DELUNK");
   ("support_ticket", 3, Some "POST-DELUNK");
   ("self_serve", 0, None)].

Definition retention_contribution (v : string) : Z * list ReasonCode :=
  if v == "yes" then (0, []) else (6, [reason_for "POST-RETUNK" "posture" 6]).

Definition posture_spec (a : AssessmentAnswers) : Z * list ReasonCode :=
  let retention := retention_contribution (retention_policy_stated a) in
  let deletion := field_contribution "posture" deletion_policy (deletion_process a) in
  clamp_to 15 (retention.1 + deletion.1, retention.2 ++ deletion.2).

(** ** Answers outside the vocabularies *)

(** The fields a scorer tests with [!= "yes"]: whatever is not "yes" is
    penalized, an answer outside the vocabulary included. *)
Definition penalized_unless_yes (f : Field) : bool :=
  match f with
  | F_retention_policy_stated | F_mfa_available | F_rbac_available
  | F_encryption_transit | F_encryption_rest | F_audit_logs_available => true
  | _ => false
  end.

(** For each field an answer of its vocabulary that takes the no-penalty
    branch of its scorer. *)
Definition benign (f : Field) : string :=
  match f with
  | F_storage_location => "vendor_cloud"
  | F_data_region => "us_only"
  | F_subprocessors_disclosed => "yes"
  | F_retention_policy_stated => "yes"
  | F_deletion_process => "self_serve"
  | F_sso_supported => "entra"
  | F_mfa_available | F_rbac_available | F_encryption_transit
  | F_encryption_rest | F_audit_logs_available => "yes"
  | F_third_party_sharing | F_used_for_advertising
  | F_used_for_ai_training | F_data_sold => "no"
  | F_integration_method => "oauth"
  | F_integration_frequency => "nightly"
  | F_sis_writeback => "no"
  end.

Definition all_fields : list Field :=
  [F_storage_location; F_data_region; F_subprocessors_disclosed;
   F_retention_policy_stated; F_deletion_process;
   F_sso_supported; F_mfa_available; F_rbac_available;
   F_encryption_transit; F_encryption_rest; F_audit_logs_available;
   F_third_party_sharing; F_used_for_advertising; F_used_for_ai_training; F_data_sold;
   F_integration_method; F_integration_frequency; F_sis_writeback].

(** The answer set with no data types, no integration types and every
    field at its benign answer. *)
Definition benign_answers : AssessmentAnswers :=
  foldr (fun f a => set_field f (benign f) a) default_answers all_fields.

(** C8 as stated, for the single-valued fields: an answer outside the
    vocabulary of a field scores exactly as the field's benign answer
    does, adding no points and no reason code. *)
Definition unrecognized_scores_as_benign : Prop :=
  forall (a : AssessmentAnswers) (f : Field) (v : string),
    v ∉ vocabulary f ->
    calculate_risk_score (set_field f v a) =
    calculate_risk_score (set_field f (benign f) a).

(** * Around the engine

    What the rest of [scoring.py] and the code that stores and reads a
    result do: [reason_codes_to_json], the [DATA_TYPES] catalogue of the
    schema, the [RiskTier] enumeration and the [RiskAssessment] row of
    [app/models/assessment.py], and the statements of [submit_assessment]
    in [app/routers/assessments.py] that turn answers into a row. *)

(** A JSON scalar as [reason_codes_to_json] emits them. *)
Inductive JsonValue : Type :=
| JString (s : string)
| JInt (n : Z).

#[global] Instance JsonValue_eq_dec : EqDecision JsonValue.
Proof. solve_decision. Defined.

Definition reason_codes_to_json (reason_codes : list ReasonCode)
  : list (gmap string JsonValue) :=
  map (fun rc =>
         list_to_map [
           ("code", JString (code rc));
           ("explanation", JString (explanation rc));
           ("category", JString (category rc));
           ("points", JInt (points rc))
         ])
      reason_codes.

(** [DATA_TYPES] of [app/schemas/assessment.py]: the data types the
    wizard offers, with their labels. *)
Definition DATA_TYPES : gmap string string :=
  list_to_map [
    ("directory_info", "Directory info (name, grade, student ID)");
    ("contact_info", "Contact info (address, parent email, phone)");
    ("attendance_discipline", "Attendance and discipline records");
    ("academic_records", "Academic records and grades");
    ("iep_504", "IEP/504 or special services documentation");
    ("health", "Health data (medical conditions, medications)");
    ("behavioral_sel", "Behavioral/SEL data (observations, assessments)");
    ("biometrics", "Biometric data (fingerprints, facial recognition)");
    ("precise_location", "Precise location tracking");
    ("photos_video_audio", "Photos, video, or audio recordings");
    ("staff_notes", "Free-text staff notes about students");
    ("auth_identifiers", "Authentication identifiers (SSO IDs)");
    ("device_identifiers", "Device identifiers")
  ].

(** The exceptions of this part of the code, and the outcome of a call. *)
Inductive PyException : Type :=
| KeyError_ (key : string)
| ValueError
| TypeError.

Inductive PyOutcome (A : Type) : Type :=
| Done (a : A)
| Raised (e : PyException).
Arguments Done {A} a.
Arguments Raised {A} e.

#[global] Instance PyOutcome_ret : MRet PyOutcome := fun A a => Done a.
#[global] Instance PyOutcome_bind : MBind PyOutcome := fun A B f m =>
  match m with
  | Done a => f a
  | Raised e => Raised e
  end.

(** A call into the engine, seen from its caller. *)
Definition outcome_of {A : Type} (res : PyResult A) : PyOutcome A :=
  match res with
  | Returned a => Done a
  | KeyError k => Raised (KeyError_ k)
  end.

(** A value of [answers_json], of one of the shapes [model_dump] gives the
    fields of [AssessmentAnswers]: [list[str]], [str] or [bool]. *)
Inductive AnswerValue : Type :=
| AList (l : list string)
| AStr (s : string)
| ABool (b : bool).

(** [answers.model_dump()]: the fields of the model by name. *)
Definition model_dump (answers : AssessmentAnswers) : gmap string AnswerValue :=
  list_to_map [
    ("data_types", AList (data_types answers));
    ("data_types_unknown", ABool (data_types_unknown answers));
    ("storage_location", AStr (storage_location answers));
    ("data_region", AStr (data_region answers));
    ("subprocessors_disclosed", AStr (subprocessors_disclosed answers));
    ("retention_policy_stated", AStr (retention_policy_stated answers));
    ("deletion_process", AStr (deletion_process answers));
    ("sso_supported", AStr (sso_supported answers));
    ("mfa_available", AStr (mfa_available answers));
    ("rbac_available", AStr (rbac_available answers));
    ("encryption_transit", AStr (encryption_transit answers));
    ("encryption_rest", AStr (encryption_rest answers));
    ("audit_logs_available", AStr (audit_logs_available answers));
    ("third_party_sharing", AStr (third_party_sharing answers));
    ("used_for_advertising", AStr (used_for_advertising answers));
    ("used_for_ai_training", AStr (used_for_ai_training answers));
    ("data_sold", AStr (data_sold answers));
    ("integration_types", AList (integration_types answers));
    ("integration_method", AStr (integration_method answers));
    ("integration_frequency", AStr (integration_frequency answers));
    ("sis_writeback", AStr (sis_writeback answers))
  ].

(** [set(v)]: the strings of a list, the characters of a string; a [bool]
    is not iterable. *)
Definition py_set (v : AnswerValue) : PyOutcome (gset string) :=
  match v with
  | AList l => Done (list_to_set l)
  | AStr s =>
      Done (list_to_set (map (fun c => String c EmptyString) (list_ascii_of_string s)))
  | ABool _ => Raised TypeError
  end.

(** [app/models/assessment.py]. *)
Module Models.

Inductive RiskTier : Type := LOW | MODERATE | HIGH | CRITICAL.

(** [tier.value]. *)
Definition value (tier : RiskTier) : string :=
  match tier with
  | LOW => "Low"
  | MODERATE => "Moderate"
  | HIGH => "High"
  | CRITICAL => "Critical"
  end.

(** [RiskTier(v)]: the member whose value is [v]; [ValueError] when there
    is none. *)
Definition RiskTier_call (v : string) : PyOutcome RiskTier :=
  if v == "Low" then Done LOW
  else if v == "Moderate" then Done MODERATE
  else if v == "High" then Done HIGH
  else if v == "Critical" then Done CRITICAL
  else Raised ValueError.

(** [RiskTier.from_score]. *)
Definition from_score (score : Z) : RiskTier :=
  if (score <=? 25)%Z then LOW
  else if (score <=? 50)%Z then MODERATE
  else if (score <=? 75)%Z then HIGH
  else CRITICAL.

(** [class RiskAssessment(Base)]: the columns the application sets; [id]
    and [assessed_at] are filled in by the database. *)
Record RiskAssessment : Type := {
  system_id : string;
  assessed_by_id : string;
  answers_json : gmap string AnswerValue;
  score_total : Z;
  score_breakdown_json : gmap string Z;
  reason_codes_json : list (gmap string JsonValue);
  risk_tier : RiskTier
}.

(** The property [data_types]. *)
Definition data_types (self : RiskAssessment) : AnswerValue :=
  dict_get (answers_json self) "data_types" (AList []).

Definition sensitive_types : gset string :=
  {["iep_504"; "health"; "behavioral_sel"; "biometrics"; "precise_location"; "discipline"]}.

(** The property [has_sensitive_data]. *)
Definition has_sensitive_data (self : RiskAssessment) : PyOutcome bool :=
  types ← py_set (data_types self);
  mret (bool_decide (types ∩ sensitive_types ≠ ∅)).

(** The property [top_reason_codes]. *)
Definition top_reason_codes (self : RiskAssessment) : list (gmap string JsonValue) :=
  match reason_codes_json self with
  | [] => []
  | _ :: _ => take 5 (reason_codes_json self)
  end.

End Models.

(** [submit_assessment], from [score_result = calculate_risk_score(answers)]
    to the construction of the row it adds: the session, the system lookup
    and the parsing of the form come before and are taken as done. *)
Definition submit_assessment_row (system_id user_id : string) (answers : AssessmentAnswers)
  : PyOutcome Models.RiskAssessment :=
  score_result ← outcome_of (calculate_risk_score answers);
  tier ← Models.RiskTier_call (risk_tier score_result);
  mret {| Models.system_id := system_id;
          Models.assessed_by_id := user_id;
          Models.answers_json := model_dump answers;
          Models.score_total := total score_result;
          Models.score_breakdown_json := breakdown score_result;
          Models.reason_codes_json := reason_codes_to_json (reason_codes score_result);
          Models.risk_tier := tier |}.

(** The answers of [test_score_capped_at_100] in [tests/test_scoring.py]:
    every answer at its worst. *)
Definition maximally_bad_answers : AssessmentAnswers := {|
  data_types :=
    ["iep_504"; "health"; "behavioral_sel"; "biometrics"; "precise_location";
     "discipline"; "photos_video_audio"; "staff_notes"; "academic_records"];
  data_types_unknown := false;
  storage_location := "both";
  data_region := "global";
  subprocessors_disclosed := "no";
  retention_policy_stated := "no";
  deletion_process := "no";
  sso_supported := "none";
  mfa_available := "no";
  rbac_available := "no";
  encryption_transit := "no";
  encryption_rest := "no";
  audit_logs_available := "no";
  third_party_sharing := "yes";
  used_for_advertising := "yes";
  used_for_ai_training := "yes";
  data_sold := "yes";
  integration_types := ["sis"; "lms"; "api"; "sso"];
  integration_method := "api_key";
  integration_frequency := "realtime";
  sis_writeback := "yes"
|}.

(** ** Vocabulary for the further properties *)

(** The points of a list of reason codes, added up. *)
Definition sum_points (rs : list ReasonCode) : Z :=
  foldr (fun rc acc => points rc + acc) 0 rs.

(** [tagged cat prefix rc]: the reason code [rc] is of category [cat], its
    code starts with [prefix], and it carries between 1 and 10 points. *)
Definition tagged (cat prefix : string) (rc : ReasonCode) : Prop :=
  category rc = cat /\ String.prefix prefix (code rc) = true /\ 1 <= points rc <= 10.

(** [covers_reasons cap res]: the scorer call [res] returned a sub-score
    that is at least the points of the reason codes it returned, as far
    as the cap [cap] lets it. *)
Definition covers_reasons (cap : Z) (res : PyResult (Z * list ReasonCode)) : Prop :=
  exists s rs, res = Returned (s, rs) /\ Z.min (sum_points rs) cap <= s <= cap.

(** [explained_by_reasons bound res]: the scorer call [res] returned a
    sub-score that is the sum of the points of the reason codes it
    returned, and at most [bound]. *)
Definition explained_by_reasons (bound : Z) (res : PyResult (Z * list ReasonCode)) : Prop :=
  exists s rs, res = Returned (s, rs) /\ s = sum_points rs /\ 0 <= s <= bound.

(** [ledger R P B m]: the body [m] raises nothing; the amount [d] it adds
    to [score] lies between 0 and [B] and stands in the relation [R] to
    the points of the reason codes it appends, which all satisfy [P]. *)
Definition ledger (R : Z -> Z -> Prop) (P : ReasonCode -> Prop) (B : Z)
    (m : Scorer unit) : Prop :=
  exists d rs, adds m d rs /\ R (sum_points rs) d /\ 0 <= d <= B /\ Forall P rs.

(** A control of the security scorer: [pts] points and the reason code
    [c] unless the answer is "yes". *)
Definition control_contribution (pts : Z) (c : string) (v : string) : Z * list ReasonCode :=
  if v == "yes" then (0, []) else (pts, [reason_for c "security" pts]).

Definition sso_contribution (v : string) : Z * list ReasonCode :=
  if str_in v ["none"; "unknown"] then (4, [reason_for "CTRL-NOSSO" "security" 4])
  else (0, []).

(** Every control is in place: single sign-on of some kind, and "yes" for
    the five others. *)
Definition all_controls_present (a : AssessmentAnswers) : Prop :=
  sso_supported a <> "none" /\ sso_supported a <> "unknown" /\
  mfa_available a = "yes" /\ rbac_available a = "yes" /\
  encryption_transit a = "yes" /\ encryption_rest a = "yes" /\
  audit_logs_available a = "yes".

(** The integration policy: three answers and the breadth rule. *)
Definition integration_policy : list ((AssessmentAnswers -> string) * list PolicyRow) :=
  [(integration_method,    [("api_key", 3, Some "INT-APIKEY");    ("unknown", 2, None)]);
   (integration_frequency, [("realtime", 3, Some "INT-REALTIME"); ("unknown", 1, None)]);
   (sis_writeback,         [("yes", 3, Some "INT-SISWB");         ("unknown", 2, None)])].

Definition breadth_contribution (types : list string) : Z * list ReasonCode :=
  if (3 <=? Z.of_nat (length types))%Z then (2, [reason_for "INT-MULTI" "integration" 2])
  else (0, []).

Definition integration_spec (a : AssessmentAnswers) : Z * list ReasonCode :=
  let answers := independent_sum "integration" integration_policy a in
  let breadth := breadth_contribution (integration_types a) in
  clamp_to 10 (answers.1 + breadth.1, answers.2 ++ breadth.2).

(** Every integration penalty at its highest. *)
Definition widest_integration (a : AssessmentAnswers) : Prop :=
  integration_method a = "api_key" /\ integration_frequency a = "realtime" /\
  sis_writeback a = "yes" /\ (3 <= length (integration_types a))%nat.

(** ** The engine, contribution by contribution *)

(** [getattr(answers, f)] for a single-valued field. *)
Definition get_field (f : Field) (a : AssessmentAnswers) : string :=
  match f with
  | F_storage_location => storage_location a
  | F_data_region => data_region a
  | F_subprocessors_disclosed => subprocessors_disclosed a
  | F_retention_policy_stated => retention_policy_stated a
  | F_deletion_process => deletion_process a
  | F_sso_supported => sso_supported a
  | F_mfa_available => mfa_available a
  | F_rbac_available => rbac_available a
  | F_encryption_transit => encryption_transit a
  | F_encryption_rest => encryption_rest a
  | F_audit_logs_available => audit_logs_available a
  | F_third_party_sharing => third_party_sharing a
  | F_used_for_advertising => used_for_advertising a
  | F_used_for_ai_training => used_for_ai_training a
  | F_data_sold => data_sold a
  | F_integration_method => integration_method a
  | F_integration_frequency => integration_frequency a
  | F_sis_writeback => sis_writeback a
  end.

(** What the answer [v] to the field [f] contributes to the scorer that
    reads [f]: the points it adds to the raw score and the reason codes
    it emits. *)
Definition contribution (f : Field) (v : string) : Z * list ReasonCode :=
  match f with
  | F_third_party_sharing =>
      field_contribution "exposure" [("yes", 6, Some "EXPO-SHARE"); ("unknown", 4, None)] v
  | F_used_for_advertising =>
      field_contribution "exposure" [("yes", 5, Some "EXPO-ADS"); ("unknown", 3, None)] v
  | F_used_for_ai_training =>
      field_contribution "exposure" [("yes", 4, Some "EXPO-AI"); ("unknown", 2, None)] v
  | F_data_sold =>
      field_contribution "exposure" [("yes", 6, Some "EXPO-SOLD"); ("unknown", 4, None)] v
  | F_subprocessors_disclosed =>
      field_contribution "exposure"
        [("no", 4, Some "EXPO-SUBP"); ("unknown", 3, Some "EXPO-SUBP")] v
  | F_data_region =>
      field_contribution "exposure" [("global", 3, Some "EXPO-GLOBAL"); ("unknown", 2, None)] v
  | F_storage_location =>
      field_contribution "exposure" [("both", 2, Some "EXPO-BOTH"); ("unknown", 2, None)] v
  | F_sso_supported => sso_contribution v
  | F_mfa_available => control_contribution 4 "CTRL-NOMFA" v
  | F_rbac_available => control_contribution 3 "CTRL-NORBAC" v
  | F_encryption_transit => control_contribution 3 "CTRL-NOTRANS" v
  | F_encryption_rest => control_contribution 3 "CTRL-NOREST" v
  | F_audit_logs_available => control_contribution 3 "CTRL-NOAUDIT" v
  | F_retention_policy_stated => retention_contribution v
  | F_deletion_process => field_contribution "posture" deletion_policy v
  | F_integration_method =>
      field_contribution "integration" [("api_key", 3, Some "INT-APIKEY"); ("unknown", 2, None)] v
  | F_integration_frequency =>
      field_contribution "integration"
        [("realtime", 3, Some "INT-REALTIME"); ("unknown", 1, None)] v
  | F_sis_writeback =>
      field_contribution "integration" [("yes", 3, Some "INT-SISWB"); ("unknown", 2, None)] v
  end.

(** The contributions of the answers of [a] to the fields [fs], added up,
    the reason codes in the order of [fs]. *)
Definition contributions (fs : list Field) (a : AssessmentAnswers) : Z * list ReasonCode :=
  foldr (fun f acc =>
           let c := contribution f (get_field f a) in
           (c.1 + acc.1, c.2 ++ acc.2))
        (0, []) fs.

(** The fields each scorer reads, in the order it reads them. *)
Definition exposure_fields : list Field :=
  [F_third_party_sharing; F_used_for_advertising; F_used_for_ai_training; F_data_sold;
   F_subprocessors_disclosed; F_data_region; F_storage_location].
Definition security_fields : list Field :=
  [F_sso_supported; F_mfa_available; F_rbac_available;
   F_encryption_transit; F_encryption_rest; F_audit_logs_available].
Definition posture_fields : list Field := [F_retention_policy_stated; F_deletion_process].
Definition integration_fields : list Field :=
  [F_integration_method; F_integration_frequency; F_sis_writeback].

(** The five sub-results in terms of the contributions. *)
Definition sensitivity_result (a : AssessmentAnswers) : Z * list ReasonCode :=
  if data_types_unknown a then (10, [reason_for "SENS-UNK" "sensitivity" 10])
  else clamp_to 30 (sum_sensitivity_points (data_types a),
                    flat_map sensitivity_reasons (data_types a)).
Definition exposure_result (a : AssessmentAnswers) : Z * list ReasonCode :=
  clamp_to 25 (contributions exposure_fields a).
Definition security_result (a : AssessmentAnswers) : Z * list ReasonCode :=
  clamp_to 20 (contributions security_fields a).
Definition posture_result (a : AssessmentAnswers) : Z * list ReasonCode :=
  clamp_to 15 (contributions posture_fields a).
Definition integration_result (a : AssessmentAnswers) : Z * list ReasonCode :=
  let answers := contributions integration_fields a in
  let breadth := breadth_contribution (integration_types a) in
  clamp_to 10 (answers.1 + breadth.1, answers.2 ++ breadth.2).

(** The result in terms of the contributions: the sub-scores summed and
    clamped to 100, the reason codes of the five sub-results sorted by
    points, highest first. *)
Definition score_from_contributions (a : AssessmentAnswers) : ScoreResult :=
  let sens := sensitivity_result a in
  let expo := exposure_result a in
  let sec := security_result a in
  let post := posture_result a in
  let int := integration_result a in
  let sum := Z.min (sens.1 + expo.1 + sec.1 + post.1 + int.1) 100 in
  {| total := sum;
     breakdown :=
       list_to_map [("sensitivity", sens.1); ("exposure", expo.1);
                    ("security_controls", sec.1); ("vendor_posture", post.1);
                    ("integration_blast_radius", int.1)];
     reason_codes := sort_key_reverse points (sens.2 ++ expo.2 ++ sec.2 ++ post.2 ++ int.2);
     risk_tier := determine_risk_tier sum |}.

(** * Properties *)

(** ** Laws of the scorer monad *)

Lemma adds_pass : adds pass 0 [].
Proof.
  intros [s r]. unfold pass, mret, Scorer_ret. cbn [score reasons].
  by rewrite Z.add_0_r, app_nil_r.
Qed.

Lemma adds_add_score n : adds (add_score n) n [].
Proof. intros [s r]. unfold add_score. cbn [score reasons]. by rewrite app_nil_r. Qed.

Lemma adds_append_reason c cat pts :
  is_Some (REASON_TEMPLATES !! c) ->
  adds (append_reason c cat pts) 0 [reason_for c cat pts].
Proof.
  intros [expl Hc] [s r]. unfold append_reason, reason_for, dict_subscript, dict_get.
  rewrite Hc. cbn [score reasons default]. by rewrite Z.add_0_r.
Qed.

Lemma adds_seq m1 m2 d1 d2 r1 r2 :
  adds m1 d1 r1 -> adds m2 d2 r2 -> adds (m1 ;; m2) (d1 + d2) (r1 ++ r2).
Proof.
  intros H1 H2 st. unfold mbind, Scorer_bind. rewrite H1, H2. cbn [score reasons].
  by rewrite Z.add_assoc, app_assoc.
Qed.

Lemma adds_eq m d rs d' rs' : adds m d rs -> d = d' -> rs = rs' -> adds m d' rs'.
Proof. by intros H <- <-. Qed.

Lemma adds_add_then_append n c cat pts :
  is_Some (REASON_TEMPLATES !! c) ->
  adds (add_score n ;; append_reason c cat pts) n [reason_for c cat pts].
Proof.
  intros Hc. replace n with (n + 0) at 2 by lia.
  change [reason_for c cat pts] with ([] ++ [reason_for c cat pts]).
  apply adds_seq; [apply adds_add_score | by apply adds_append_reason].
Qed.

Lemma adds_last m d rs : adds m d rs -> adds m (d + 0) (rs ++ []).
Proof. intros H. apply (adds_eq m d rs); [done | lia | by rewrite app_nil_r]. Qed.

Lemma adds_for_each {A : Type} (body : A -> Scorer unit) (f : A -> Z)
    (g : A -> list ReasonCode) (xs : list A) :
  (forall x, adds (body x) (f x) (g x)) ->
  adds (for_each xs body) (foldr (fun x acc => f x + acc) 0 xs) (flat_map g xs).
Proof.
  intros Hbody. induction xs as [|x xs IH]; cbn [for_each foldr flat_map].
  - apply adds_pass.
  - by apply adds_seq.
Qed.

Lemma adds_scorer_body cap m d rs :
  adds m d rs -> scorer_body cap m = Returned (Z.min d cap, rs).
Proof. intros H. unfold scorer_body. rewrite H. cbn [score reasons]. by rewrite Z.add_0_l. Qed.

Lemma well_behaved_pass : well_behaved pass.
Proof. exists 0, []. split; [apply adds_pass | split; [lia | constructor]]. Qed.

Lemma well_behaved_add_score n : 0 <= n -> well_behaved (add_score n).
Proof. intros Hn. exists n, []. split; [apply adds_add_score | split; [lia | constructor]]. Qed.

Lemma well_behaved_append_reason c cat pts :
  is_Some (REASON_TEMPLATES !! c) -> 1 <= pts -> well_behaved (append_reason c cat pts).
Proof.
  intros Hc Hp. exists 0, [reason_for c cat pts].
  split; [by apply adds_append_reason | split; [lia | by repeat constructor]].
Qed.

Lemma well_behaved_seq m1 m2 :
  well_behaved m1 -> well_behaved m2 -> well_behaved (m1 ;; m2).
Proof.
  intros (d1 & r1 & H1 & Hd1 & Hr1) (d2 & r2 & H2 & Hd2 & Hr2).
  exists (d1 + d2), (r1 ++ r2).
  split; [by apply adds_seq | split; [lia | by apply Forall_app]].
Qed.

Lemma well_behaved_if (b : bool) m1 m2 :
  (b = true -> well_behaved m1) -> (b = false -> well_behaved m2) ->
  well_behaved (if b then m1 else m2).
Proof. destruct b; auto. Qed.

Lemma well_behaved_for_each {A : Type} (body : A -> Scorer unit) (xs : list A) :
  (forall x, well_behaved (body x)) -> well_behaved (for_each xs body).
Proof.
  intros Hbody. induction xs as [|x xs IH]; cbn [for_each].
  - apply well_behaved_pass.
  - by apply well_behaved_seq.
Qed.

Lemma well_behaved_scorer_body cap m :
  0 <= cap -> well_behaved m -> bounded_result cap (scorer_body cap m).
Proof.
  intros Hcap (d & rs & Hm & Hd & Hrs). exists (Z.min d cap), rs.
  split; [by apply adds_scorer_body | split; [lia | done]].
Qed.

Ltac template_present := vm_compute; eexists; reflexivity.

Ltac well_behaved_step :=
  first
    [ apply well_behaved_pass
    | apply well_behaved_seq
    | apply well_behaved_if; intros ?
    | apply well_behaved_add_score; lia
    | apply well_behaved_append_reason; [template_present | lia] ].

Lemma DATA_TYPE_POINTS_nonneg k : 0 <= dict_get DATA_TYPE_POINTS k 0.
Proof.
  unfold dict_get. destruct (DATA_TYPE_POINTS !! k) as [v|] eqn:Hk; cbn [default]; [|lia].
  assert (Hall : map_Forall (fun _ v => 0 <= v) DATA_TYPE_POINTS).
  { apply map_Forall_to_list. vm_compute. repeat constructor; discriminate. }
  exact (Hall k v Hk).
Qed.

Lemma sensitivity_bounded a : bounded_result 30 (calculate_sensitivity_score a).
Proof.
  apply well_behaved_scorer_body; [lia|].
  destruct (data_types_unknown a).
  - repeat well_behaved_step.
  - apply well_behaved_for_each. intros k. cbv zeta.
    apply well_behaved_seq; [apply well_behaved_add_score, DATA_TYPE_POINTS_nonneg|].
    repeat (apply well_behaved_if; [intros E | intros _]);
      try apply well_behaved_pass;
      try apply orb_true_iff in E as [E|E];
      apply String.eqb_eq in E; subst k;
      (apply well_behaved_append_reason; [template_present | by vm_compute]).
Qed.

Lemma exposure_bounded a : bounded_result 25 (calculate_exposure_score a).
Proof. apply well_behaved_scorer_body; [lia|]. repeat well_behaved_step. Qed.

Lemma security_bounded a : bounded_result 20 (calculate_security_score a).
Proof. apply well_behaved_scorer_body; [lia|]. repeat well_behaved_step. Qed.

Lemma posture_bounded a : bounded_result 15 (calculate_posture_score a).
Proof. apply well_behaved_scorer_body; [lia|]. repeat well_behaved_step. Qed.

Lemma integration_bounded a : bounded_result 10 (calculate_integration_score a).
Proof. apply well_behaved_scorer_body; [lia|]. repeat well_behaved_step. Qed.

(** ** The sort *)

Section SortKeyReverse.
Context {A : Type} (key : A -> Z).

Lemma insert_key_reverse_perm x xs :
  Permutation (insert_key_reverse key x xs) (x :: xs).
Proof.
  induction xs as [|y xs IH]; cbn [insert_key_reverse]; [done|].
  destruct (key x <? key y); [|done].
  rewrite IH. apply perm_swap.
Qed.

Lemma sort_key_reverse_perm xs : Permutation (sort_key_reverse key xs) xs.
Proof.
  induction xs as [|x xs IH]; cbn [sort_key_reverse]; [done|].
  rewrite insert_key_reverse_perm. by constructor.
Qed.

Lemma insert_key_reverse_sorted x xs :
  StronglySorted (key_ge key) xs -> StronglySorted (key_ge key) (insert_key_reverse key x xs).
Proof.
  induction 1 as [|y xs Hxs IH Hy]; cbn [insert_key_reverse].
  - repeat constructor.
  - destruct (Z.ltb_spec (key x) (key y)) as [Hlt|Hge].
    + constructor; [done|].
      rewrite insert_key_reverse_perm. constructor; [unfold key_ge; lia | done].
    + constructor; [by constructor|].
      constructor; [unfold key_ge; lia|].
      eapply Forall_impl; [exact Hy|]. unfold key_ge. intros z Hz. cbn in Hz |- *. lia.
Qed.

Lemma sort_key_reverse_sorted xs : StronglySorted (key_ge key) (sort_key_reverse key xs).
Proof.
  induction xs as [|x xs IH]; cbn [sort_key_reverse]; [constructor|].
  by apply insert_key_reverse_sorted.
Qed.

Lemma with_key_cons p x xs :
  with_key key p (x :: xs) =
    if decide (key x = p) then x :: with_key key p xs else with_key key p xs.
Proof. unfold with_key. by rewrite filter_cons. Qed.

Lemma insert_key_reverse_with_key p x xs :
  with_key key p (insert_key_reverse key x xs) = with_key key p (x :: xs).
Proof.
  induction xs as [|y xs IH]; cbn [insert_key_reverse]; [done|].
  destruct (Z.ltb_spec (key x) (key y)) as [Hlt|Hge]; [|done].
  rewrite (with_key_cons p y), IH, !with_key_cons.
  repeat case_decide; try done; lia.
Qed.

Lemma sort_key_reverse_stable xs : stable_rearrangement key xs (sort_key_reverse key xs).
Proof.
  intros p. induction xs as [|x xs IH]; cbn [sort_key_reverse]; [done|].
  by rewrite insert_key_reverse_with_key, !with_key_cons, IH.
Qed.

Lemma with_key_above p x xs :
  Forall (key_ge key x) xs -> key x < p -> with_key key p xs = [].
Proof.
  intros Hall Hp. induction Hall as [|y xs Hy _ IH]; [done|].
  rewrite with_key_cons, IH. unfold key_ge in Hy. case_decide; [lia | done].
Qed.

(** Two sorted lists with the same elements of every key, in the same
    order, are the same list. *)
Lemma sorted_stable_unique xs ys :
  StronglySorted (key_ge key) xs -> StronglySorted (key_ge key) ys ->
  (forall p, with_key key p xs = with_key key p ys) -> xs = ys.
Proof.
  intros Hxs. revert ys.
  induction Hxs as [|x xs Hxs IH Hx]; intros ys Hys Heq.
  - destruct ys as [|y ys]; [done|].
    specialize (Heq (key y)). rewrite with_key_cons in Heq.
    by rewrite decide_True in Heq.
  - destruct Hys as [|y ys Hys Hy].
    { specialize (Heq (key x)). rewrite with_key_cons in Heq.
      by rewrite decide_True in Heq. }
    assert (Hk : key x = key y).
    { destruct (Z.lt_trichotomy (key x) (key y)) as [Hlt|[Heq'|Hgt]]; [|done|].
      - specialize (Heq (key y)). rewrite !with_key_cons in Heq.
        rewrite (decide_True (P := key y = key y)) in Heq by done.
        rewrite decide_False in Heq by lia.
        by rewrite (with_key_above (key y) x xs) in Heq.
      - specialize (Heq (key x)). rewrite !with_key_cons in Heq.
        rewrite (decide_True (P := key x = key x)) in Heq by done.
        rewrite decide_False in Heq by lia.
        by rewrite (with_key_above (key x) y ys) in Heq. }
    assert (x = y) as <-.
    { specialize (Heq (key x)). rewrite !with_key_cons in Heq.
      rewrite !decide_True in Heq by done. congruence. }
    f_equal. apply IH; [done|]. intros p.
    specialize (Heq p). rewrite !with_key_cons in Heq.
    case_decide; congruence.
Qed.

(** The contract of the builtin determines its result: whatever list is
    sorted highest key first and is a stable rearrangement of [xs] is
    the list the model computes. *)
Lemma sort_key_reverse_unique xs ys :
  StronglySorted (key_ge key) ys -> stable_rearrangement key xs ys ->
  ys = sort_key_reverse key xs.
Proof.
  intros Hys Hst. apply sorted_stable_unique; [done | apply sort_key_reverse_sorted |].
  intros p. by rewrite Hst, sort_key_reverse_stable.
Qed.
End SortKeyReverse.

(** ** The combiner over returned sub-results *)

(** Once the five scorers have returned, [calculate_risk_score] returns the
    record built from their results. *)
Lemma calculate_risk_score_eq a s1 r1 s2 r2 s3 r3 s4 r4 s5 r5 :
  calculate_sensitivity_score a = Returned (s1, r1) ->
  calculate_exposure_score a = Returned (s2, r2) ->
  calculate_security_score a = Returned (s3, r3) ->
  calculate_posture_score a = Returned (s4, r4) ->
  calculate_integration_score a = Returned (s5, r5) ->
  calculate_risk_score a =
    Returned {|
      total := Z.min (s1 + s2 + s3 + s4 + s5) 100;
      breakdown :=
        list_to_map [("sensitivity", s1); ("exposure", s2); ("security_controls", s3);
                     ("vendor_posture", s4); ("integration_blast_radius", s5)];
      reason_codes := sort_key_reverse points (r1 ++ r2 ++ r3 ++ r4 ++ r5);
      risk_tier := determine_risk_tier (Z.min (s1 + s2 + s3 + s4 + s5) 100)
    |}.
Proof.
  intros H1 H2 H3 H4 H5. unfold calculate_risk_score.
  rewrite H1, H2, H3, H4, H5. reflexivity.
Qed.

Lemma Forall_sort_key_reverse {A : Type} (key : A -> Z) (P : A -> Prop) xs :
  Forall P xs -> Forall P (sort_key_reverse key xs).
Proof. intros H. by rewrite sort_key_reverse_perm. Qed.

(** [calculate_risk_score] depends on the answers through the five scorers
    only. *)
Lemma calculate_risk_score_ext a a' :
  calculate_sensitivity_score a = calculate_sensitivity_score a' ->
  calculate_exposure_score a = calculate_exposure_score a' ->
  calculate_security_score a = calculate_security_score a' ->
  calculate_posture_score a = calculate_posture_score a' ->
  calculate_integration_score a = calculate_integration_score a' ->
  calculate_risk_score a = calculate_risk_score a'.
Proof.
  intros H1 H2 H3 H4 H5. unfold calculate_risk_score.
  by rewrite H1, H2, H3, H4, H5.
Qed.

Lemma calculate_risk_score_returns a : exists r, calculate_risk_score a = Returned r.
Proof.
  destruct (sensitivity_bounded a) as (s1 & r1 & H1 & _).
  destruct (exposure_bounded a) as (s2 & r2 & H2 & _).
  destruct (security_bounded a) as (s3 & r3 & H3 & _).
  destruct (posture_bounded a) as (s4 & r4 & H4 & _).
  destruct (integration_bounded a) as (s5 & r5 & H5 & _).
  eexists. exact (calculate_risk_score_eq a _ _ _ _ _ _ _ _ _ _ H1 H2 H3 H4 H5).
Qed.

(** ** The tables *)

Lemma list_to_map_lookup_assoc {V : Type} (t : list (string * V)) (k : string) :
  (list_to_map t : gmap string V) !! k = assoc k t.
Proof.
  induction t as [|[k' v] t IH]; cbn [list_to_map foldr assoc uncurry]; [done|].
  destruct (String.eqb_spec k k') as [->|Hne].
  - cbn. by rewrite lookup_insert_eq.
  - cbn. by rewrite lookup_insert_ne.
Qed.

Lemma assoc_Some_elem_of {V : Type} (k : string) (v : V) (t : list (string * V)) :
  assoc k t = Some v -> (k, v) ∈ t.
Proof.
  induction t as [|[k' v'] t IH]; cbn [assoc]; [done|].
  destruct (String.eqb_spec k k') as [->|Hne].
  - intros [= ->]. apply list_elem_of_here.
  - intros H. apply list_elem_of_further. auto.
Qed.

Lemma DATA_TYPE_POINTS_get k : dict_get DATA_TYPE_POINTS k 0 = sensitivity_points k.
Proof.
  unfold dict_get, DATA_TYPE_POINTS, sensitivity_points, sensitivity_points_table.
  rewrite list_to_map_lookup_assoc. cbn [assoc].
  repeat match goal with
         | |- context [k == ?s] => destruct (String.eqb_spec k s) as [->|?]; [reflexivity|]
         end.
  reflexivity.
Qed.

Lemma sensitivity_entry_adds k :
  adds (let points := dict_get DATA_TYPE_POINTS k 0 in
        add_score points ;;
        if k == "iep_504" then append_reason "SENS-IEP" "sensitivity" points
        else if k == "health" then append_reason "SENS-HEALTH" "sensitivity" points
        else if k == "behavioral_sel" then append_reason "SENS-BEHAV" "sensitivity" points
        else if k == "biometrics" then append_reason "SENS-BIO" "sensitivity" points
        else if k == "precise_location" then append_reason "SENS-LOC" "sensitivity" points
        else if (k == "discipline") || (k == "attendance_discipline") then
          append_reason "SENS-DISC" "sensitivity" points
        else if k == "photos_video_audio" then
          append_reason "SENS-MEDIA" "sensitivity" points
        else pass)
       (sensitivity_points k) (sensitivity_reasons k).
Proof.
  cbv zeta. rewrite DATA_TYPE_POINTS_get.
  apply (adds_eq _ (sensitivity_points k + 0) ([] ++ sensitivity_reasons k));
    [|lia|done].
  apply adds_seq; [apply adds_add_score|].
  unfold sensitivity_reasons, sensitivity_code_table. cbn [assoc].
  repeat match goal with
         | |- context [k == ?s] =>
             destruct (k == s) eqn:?; cbn [orb];
             [apply adds_append_reason; template_present|]
         end.
  apply adds_pass.
Qed.

(** What [calculate_sensitivity_score] returns, in closed form. *)
Lemma calculate_sensitivity_score_eq a :
  calculate_sensitivity_score a =
    Returned (if data_types_unknown a
              then (10, [reason_for "SENS-UNK" "sensitivity" 10])
              else (Z.min (sum_sensitivity_points (data_types a)) 30,
                    flat_map sensitivity_reasons (data_types a))).
Proof.
  unfold calculate_sensitivity_score. destruct (data_types_unknown a).
  - rewrite (adds_scorer_body _ _ 10 [reason_for "SENS-UNK" "sensitivity" 10]);
      [reflexivity|].
    apply adds_add_then_append. template_present.
  - apply adds_scorer_body.
    apply (adds_for_each _ sensitivity_points sensitivity_reasons).
    exact sensitivity_entry_adds.
Qed.

(** ** Scenarios of the test suite *)

Example test_no_data_types :
  calculate_sensitivity_score (answers_with_data_types [] false) = Returned (0, []).
Proof. by vm_compute. Qed.

Example test_low_sensitivity_data :
  calculate_sensitivity_score
    (answers_with_data_types ["directory_info"; "auth_identifiers"] false) =
    Returned (3, []).
Proof. by vm_compute. Qed.

Example test_mixed_sensitivity_data :
  calculate_sensitivity_score
    (answers_with_data_types ["iep_504"; "health"; "directory_info"] false) =
    Returned (18, [reason_for "SENS-IEP" "sensitivity" 8;
                   reason_for "SENS-HEALTH" "sensitivity" 8]).
Proof. by vm_compute. Qed.

Example test_sensitivity_capped_at_30 :
  returns_score
    (calculate_sensitivity_score
       (answers_with_data_types
          ["iep_504"; "health"; "behavioral_sel"; "biometrics";
           "precise_location"; "discipline"] false)) 30.
Proof. eexists. by vm_compute. Qed.

Example test_no_exposure :
  calculate_exposure_score benign_answers = Returned (0, []).
Proof. by vm_compute. Qed.

Example default_exposure :
  calculate_exposure_score default_answers =
    Returned (20, [reason_for "EXPO-SUBP" "exposure" 3]).
Proof. by vm_compute. Qed.

Example default_posture :
  calculate_posture_score default_answers =
    Returned (11, [reason_for "POST-RETUNK" "posture" 6;
                   reason_for "POST-DELUNK" "posture" 5]).
Proof. by vm_compute. Qed.

(** ** C1: bounds *)

(** C1. Every answer set gets a result; each breakdown entry is its
    scorer's sub-score and lies within the category cap (30, 25, 20, 15,
    10) and above 0; the raw sum of the five sub-scores is at most 100, so
    the total is that sum, the final clamp changing nothing; and the total
    lies between 0 and 100. *)
Theorem calculate_risk_score_bounds (a : AssessmentAnswers) :
  exists r sens expo sec post int,
    calculate_risk_score a = Returned r /\
    returns_score (calculate_sensitivity_score a) sens /\
    returns_score (calculate_exposure_score a) expo /\
    returns_score (calculate_security_score a) sec /\
    returns_score (calculate_posture_score a) post /\
    returns_score (calculate_integration_score a) int /\
    breakdown r !! "sensitivity" = Some sens /\ 0 <= sens <= 30 /\
    breakdown r !! "exposure" = Some expo /\ 0 <= expo <= 25 /\
    breakdown r !! "security_controls" = Some sec /\ 0 <= sec <= 20 /\
    breakdown r !! "vendor_posture" = Some post /\ 0 <= post <= 15 /\
    breakdown r !! "integration_blast_radius" = Some int /\ 0 <= int <= 10 /\
    sens + expo + sec + post + int <= 100 /\
    total r = sens + expo + sec + post + int /\
    0 <= total r <= 100.
Proof.
  destruct (sensitivity_bounded a) as (s1 & r1 & H1 & B1 & _).
  destruct (exposure_bounded a) as (s2 & r2 & H2 & B2 & _).
  destruct (security_bounded a) as (s3 & r3 & H3 & B3 & _).
  destruct (posture_bounded a) as (s4 & r4 & H4 & B4 & _).
  destruct (integration_bounded a) as (s5 & r5 & H5 & B5 & _).
  eexists _, s1, s2, s3, s4, s5.
  split; [exact (calculate_risk_score_eq a _ _ _ _ _ _ _ _ _ _ H1 H2 H3 H4 H5)|].
  rewrite H1, H2, H3, H4, H5. cbn [total breakdown].
  repeat (split; [first [by eexists | reflexivity | lia]|]).
  lia.
Qed.

(** ** C2: the tier bands *)

(** C2. The risk tier depends on the total alone, with inclusive upper
    bounds: "Low" up to 25, "Moderate" for 26 to 50, "High" for 51 to 75,
    "Critical" for 76 to 100; in particular at the seven band edges listed. *)
Theorem determine_risk_tier_bands (t : Z) :
  (t <= 25 -> determine_risk_tier t = "Low") /\
  (26 <= t <= 50 -> determine_risk_tier t = "Moderate") /\
  (51 <= t <= 75 -> determine_risk_tier t = "High") /\
  (76 <= t <= 100 -> determine_risk_tier t = "Critical") /\
  determine_risk_tier 25 = "Low" /\
  determine_risk_tier 26 = "Moderate" /\
  determine_risk_tier 50 = "Moderate" /\
  determine_risk_tier 51 = "High" /\
  determine_risk_tier 75 = "High" /\
  determine_risk_tier 76 = "Critical" /\
  determine_risk_tier 100 = "Critical".
Proof.
  unfold determine_risk_tier.
  repeat split; try reflexivity; intros H;
    repeat match goal with
           | |- context [?x <=? ?y] => destruct (Z.leb_spec x y); try lia
           end; reflexivity.
Qed.

(** ** C3: unknown data types *)

(** C3. When [data_types_unknown] is set, whatever [data_types] holds, the
    sensitivity scorer returns the sub-score 10 with exactly one reason
    code, SENS-UNK worth 10 points, and nothing for the entries of
    [data_types]. *)
Theorem unknown_data_types_override (a : AssessmentAnswers) :
  data_types_unknown a = true ->
  calculate_sensitivity_score a =
    Returned (10, [{| code := "SENS-UNK";
                      explanation :=
                        "Data types collected are unknown, adding uncertainty to risk assessment.";
                      category := "sensitivity";
                      points := 10 |}]).
Proof. intros H. rewrite calculate_sensitivity_score_eq, H. reflexivity. Qed.

Lemma unknown_data_types_override_witness :
  calculate_sensitivity_score (answers_with_data_types ["iep_504"] true) =
    Returned (10, [{| code := "SENS-UNK";
                      explanation :=
                        "Data types collected are unknown, adding uncertainty to risk assessment.";
                      category := "sensitivity";
                      points := 10 |}]).
Proof. apply (unknown_data_types_override (answers_with_data_types ["iep_504"] true)). reflexivity. Defined.

(** ** C4: known data types *)

Lemma sensitivity_reasons_cases k :
  sensitivity_reasons k = [] \/ exists rc, sensitivity_reasons k = [rc].
Proof. unfold sensitivity_reasons. destruct (assoc k sensitivity_code_table); eauto. Qed.

(** No two categories emit the same reason code: the two that share
    SENS-DISC differ in points. *)
Lemma sensitivity_code_table_inj :
  Forall (fun e =>
    Forall (fun e' =>
      reason_for e.2 "sensitivity" (sensitivity_points e.1) =
      reason_for e'.2 "sensitivity" (sensitivity_points e'.1) -> e.1 = e'.1)
      sensitivity_code_table)
    sensitivity_code_table.
Proof. apply (bool_decide_unpack _). by vm_compute. Qed.

Lemma sensitivity_reasons_inj k k' rc :
  rc ∈ sensitivity_reasons k -> rc ∈ sensitivity_reasons k' -> k = k'.
Proof.
  unfold sensitivity_reasons.
  destruct (assoc k sensitivity_code_table) as [c|] eqn:E; [|by intros ?%elem_of_nil].
  destruct (assoc k' sensitivity_code_table) as [c'|] eqn:E'; [|by intros _ ?%elem_of_nil].
  apply assoc_Some_elem_of in E, E'.
  intros ->%list_elem_of_singleton H%list_elem_of_singleton.
  pose proof sensitivity_code_table_inj as Hinj.
  rewrite Forall_forall in Hinj. specialize (Hinj _ E).
  rewrite Forall_forall in Hinj. exact (Hinj _ E' H).
Qed.

Lemma reasons_of_category_app k rs1 rs2 :
  reasons_of_category k (rs1 ++ rs2) =
    (reasons_of_category k rs1 + reasons_of_category k rs2)%nat.
Proof. unfold reasons_of_category. by rewrite filter_app, length_app. Qed.

Lemma reasons_of_category_same k :
  reasons_of_category k (sensitivity_reasons k) = length (sensitivity_reasons k).
Proof.
  unfold reasons_of_category.
  destruct (sensitivity_reasons_cases k) as [->|[rc ->]]; [done|].
  rewrite filter_cons_True by apply list_elem_of_here. done.
Qed.

Lemma reasons_of_category_other k k' :
  k <> k' -> reasons_of_category k (sensitivity_reasons k') = 0%nat.
Proof.
  intros Hne. unfold reasons_of_category.
  destruct (sensitivity_reasons_cases k') as [->|[rc Hrc]]; [done|].
  rewrite Hrc. rewrite filter_cons_False; [done|].
  intros Hin. apply Hne. apply (sensitivity_reasons_inj k k' rc); [done|].
  rewrite Hrc. apply list_elem_of_here.
Qed.

Lemma reasons_of_category_absent k ks :
  k ∉ ks -> reasons_of_category k (flat_map sensitivity_reasons ks) = 0%nat.
Proof.
  induction ks as [|x ks IH]; [done|].
  intros [Hne Hks]%not_elem_of_cons. cbn [flat_map].
  by rewrite reasons_of_category_app, reasons_of_category_other, IH.
Qed.

Lemma reasons_of_category_NoDup k ks :
  NoDup ks -> k ∈ ks -> sensitivity_reasons k <> [] ->
  reasons_of_category k (flat_map sensitivity_reasons ks) = 1%nat.
Proof.
  intros Hnd Hk Hcoded. induction Hnd as [|x ks Hx Hnd IH]; [by apply elem_of_nil in Hk|].
  cbn [flat_map]. rewrite reasons_of_category_app.
  destruct (decide (k = x)) as [->|Hne].
  - rewrite reasons_of_category_same, reasons_of_category_absent by done.
    destruct (sensitivity_reasons_cases x) as [?|[rc ->]]; done.
  - apply elem_of_cons in Hk as [?|Hk]; [done|].
    by rewrite reasons_of_category_other, IH.
Qed.

(** C4, as stated, fails: with the key [iep_504] listed twice the one
    category present gets two SENS-IEP reason codes, one per occurrence. *)
Lemma repeated_data_type_repeats_reason :
  data_types_unknown repeated_iep_answers = false /\
  calculate_sensitivity_score repeated_iep_answers =
    Returned (16, [reason_for "SENS-IEP" "sensitivity" 8;
                   reason_for "SENS-IEP" "sensitivity" 8]) /\
  ~ one_reason_per_category (data_types repeated_iep_answers)
      [reason_for "SENS-IEP" "sensitivity" 8; reason_for "SENS-IEP" "sensitivity" 8].
Proof.
  split; [reflexivity|]. split; [by vm_compute|].
  intros H. specialize (H "iep_504").
  assert (Hc : reasons_of_category "iep_504"
                 [reason_for "SENS-IEP" "sensitivity" 8;
                  reason_for "SENS-IEP" "sensitivity" 8] = 2%nat) by (by vm_compute).
  rewrite Hc in H. discriminate H.
  - apply list_elem_of_here.
  - by vm_compute.
Qed.

(** C4, amended. With [data_types_unknown] unset the sensitivity sub-score
    is the sum over the entries of [data_types] of the table values, an
    unlisted key counting 0, clamped to at most 30; the reason codes are,
    entry by entry and in order, the one of each reason-coded entry, so a
    repeated entry repeats its reason code; [discipline] and
    [attendance_discipline] share the code SENS-DISC; the low-sensitivity
    and unlisted keys have no reason code; and when no entry is repeated
    every reason-coded category present has exactly one reason code. *)
Theorem sensitivity_score_known (a : AssessmentAnswers) :
  data_types_unknown a = false ->
  calculate_sensitivity_score a =
    Returned (Z.min (sum_sensitivity_points (data_types a)) 30,
              flat_map sensitivity_reasons (data_types a)) /\
  (NoDup (data_types a) ->
   one_reason_per_category (data_types a)
     (flat_map sensitivity_reasons (data_types a))) /\
  (forall k, assoc k sensitivity_points_table = None -> sensitivity_points k = 0) /\
  (forall k, assoc k sensitivity_code_table = None -> sensitivity_reasons k = []) /\
  code <$> sensitivity_reasons "discipline" = ["SENS-DISC"] /\
  code <$> sensitivity_reasons "attendance_discipline" = ["SENS-DISC"] /\
  Forall (fun k => 1 <= sensitivity_points k /\ sensitivity_reasons k = [])
    ["staff_notes"; "academic_records"; "directory_info"; "contact_info";
     "auth_identifiers"; "device_identifiers"].
Proof.
  intros H. rewrite calculate_sensitivity_score_eq, H.
  split; [reflexivity|].
  split; [intros Hnd k Hk Hcoded; by apply reasons_of_category_NoDup|].
  split; [intros k Hk; unfold sensitivity_points; by rewrite Hk|].
  split; [intros k Hk; unfold sensitivity_reasons; by rewrite Hk|].
  split; [reflexivity|]. split; [reflexivity|].
  repeat constructor; by vm_compute.
Qed.

Lemma sensitivity_score_known_witness :
  calculate_sensitivity_score
    (answers_with_data_types ["iep_504"; "health"; "directory_info"] false) =
    Returned (18, [reason_for "SENS-IEP" "sensitivity" 8;
                   reason_for "SENS-HEALTH" "sensitivity" 8]).
Proof.
  exact (proj1 (sensitivity_score_known
                  (answers_with_data_types ["iep_504"; "health"; "directory_info"] false)
                  eq_refl)).
Defined.

(** ** C5: the exposure scorer *)

(** One [if]/[elif] block of a scorer against the contribution the policy
    gives: the answer is compared with each listed value in turn. *)
Ltac adds_block :=
  unfold retention_contribution, deletion_policy;
  cbn [field_contribution fst snd negb];
  repeat match goal with
         | |- context [?v == ?s] => destruct (v == s) eqn:?; cbn [fst snd negb]
         end;
  first [ apply adds_pass
        | apply adds_add_score
        | apply adds_add_then_append; template_present ].

(** C5. The exposure scorer returns, for every answer set, the clamp to at
    most 25 of the independent per-field sums of the exposure policy:
    sharing yes 6 with EXPO-SHARE, unknown 4; advertising yes 5 with a
    code, unknown 3; AI training yes 4 with a code, unknown 2; data sold
    yes 6 with a code, unknown 4; subprocessors no 4 and unknown 3, both
    with EXPO-SUBP; region global 3 with a code, unknown 2; storage both 2
    with a code, unknown 2; any other answer 0 and no code. *)
Theorem calculate_exposure_score_spec (a : AssessmentAnswers) :
  calculate_exposure_score a = Returned (exposure_spec a).
Proof.
  unfold calculate_exposure_score, exposure_spec, clamp_to.
  apply adds_scorer_body.
  unfold independent_sum, exposure_policy. cbn [foldr fst snd].
  repeat (apply adds_seq; [adds_block|]).
  apply adds_last. adds_block.
Qed.

(** ** C6: the vendor-posture scorer *)

(** C6. The vendor-posture scorer returns, for every answer set, the clamp
    to at most 15 of: 6 with POST-RETUNK when the retention answer is
    anything but "yes", plus for the deletion answer "no" 6 with
    POST-NODEL, "unknown" 5 with POST-DELUNK, "support_ticket" 3 with
    POST-DELUNK again, "self_serve" 0 and no code. *)
Theorem calculate_posture_score_spec (a : AssessmentAnswers) :
  calculate_posture_score a = Returned (posture_spec a).
Proof.
  unfold calculate_posture_score, posture_spec, clamp_to. cbv zeta. cbn [fst snd].
  apply adds_scorer_body.
  apply adds_seq; adds_block.
Qed.

(** ** C7: the order of the reason codes *)

(** C7. Every answer set gets a result whose reason codes are the five
    scorers' reason lists, concatenated in the order sensitivity,
    exposure, security, posture, integration, and then rearranged: the
    result holds the same reason codes, their points never increase along
    it, and the reason codes of any one point value stand in it in the
    order the concatenation has them. *)
Theorem reason_codes_stably_sorted (a : AssessmentAnswers) :
  exists r sens_reasons expo_reasons sec_reasons post_reasons int_reasons,
    calculate_risk_score a = Returned r /\
    returns_reasons (calculate_sensitivity_score a) sens_reasons /\
    returns_reasons (calculate_exposure_score a) expo_reasons /\
    returns_reasons (calculate_security_score a) sec_reasons /\
    returns_reasons (calculate_posture_score a) post_reasons /\
    returns_reasons (calculate_integration_score a) int_reasons /\
    let all_reasons :=
      sens_reasons ++ expo_reasons ++ sec_reasons ++ post_reasons ++ int_reasons in
    Permutation (reason_codes r) all_reasons /\
    StronglySorted (fun x y => points y <= points x) (reason_codes r) /\
    (forall p : Z,
       filter (fun rc => points rc = p) (reason_codes r) =
       filter (fun rc => points rc = p) all_reasons).
Proof.
  destruct (sensitivity_bounded a) as (s1 & r1 & H1 & _).
  destruct (exposure_bounded a) as (s2 & r2 & H2 & _).
  destruct (security_bounded a) as (s3 & r3 & H3 & _).
  destruct (posture_bounded a) as (s4 & r4 & H4 & _).
  destruct (integration_bounded a) as (s5 & r5 & H5 & _).
  eexists _, r1, r2, r3, r4, r5.
  split; [exact (calculate_risk_score_eq a _ _ _ _ _ _ _ _ _ _ H1 H2 H3 H4 H5)|].
  rewrite H1, H2, H3, H4, H5. cbn [reason_codes].
  repeat (split; [by eexists|]).
  cbv zeta. split; [apply sort_key_reverse_perm|].
  split; [apply (sort_key_reverse_sorted points)|].
  apply (sort_key_reverse_stable points).
Qed.

(** ** C8: totality *)

Ltac contribution_block :=
  unfold sso_contribution, control_contribution, breadth_contribution;
  repeat match goal with
         | |- context [if ?c then _ else _] =>
             match c with
             | negb ?c' => destruct c' eqn:?
             | _ => destruct c eqn:?
             end; cbn [fst snd negb]
         end;
  first [ apply adds_pass
        | apply adds_add_score
        | apply adds_add_then_append; template_present ].

Ltac unfold_scorers :=
  unfold calculate_sensitivity_score, calculate_exposure_score,
    calculate_security_score, calculate_posture_score, calculate_integration_score;
  cbn [set_field set_data_types set_integration_types
       data_types data_types_unknown storage_location data_region
       subprocessors_disclosed retention_policy_stated deletion_process
       sso_supported mfa_available rbac_available encryption_transit
       encryption_rest audit_logs_available third_party_sharing
       used_for_advertising used_for_ai_training data_sold integration_types
       integration_method integration_frequency sis_writeback].

(** The comparisons of an answer with the values it differs from are
    rewritten to [false]; what is left is decided by evaluation. *)
Ltac same_branch :=
  unfold_scorers; cbn [str_in existsb];
  repeat match goal with
         | H : ?v <> ?s |- context [?v == ?s] =>
             rewrite (proj2 (String.eqb_neq v s) H)
         end;
  reflexivity.

Lemma set_field_unrecognized a f v :
  penalized_unless_yes f = false -> v ∉ vocabulary f ->
  calculate_risk_score (set_field f v a) =
  calculate_risk_score (set_field f (benign f) a).
Proof.
  intros Hf Hv.
  destruct f; try discriminate Hf; cbn [vocabulary benign] in *;
    unfold StorageLocation, DataRegion, DeletionProcess, SSOOption,
      IntegrationMethod, IntegrationFrequency, YesNoUnknown in Hv;
    repeat (apply not_elem_of_cons in Hv as [? Hv]);
    apply calculate_risk_score_ext; same_branch.
Qed.

Lemma set_field_not_yes a f v :
  penalized_unless_yes f = true -> v <> "yes" ->
  calculate_risk_score (set_field f v a) = calculate_risk_score (set_field f "no" a).
Proof.
  intros Hf Hv.
  destruct f; try discriminate Hf; apply calculate_risk_score_ext; same_branch.
Qed.

Lemma unlisted_data_type_ignored a ks1 k ks2 :
  DATA_TYPE_POINTS !! k = None ->
  calculate_risk_score (set_data_types (ks1 ++ k :: ks2) a) =
  calculate_risk_score (set_data_types (ks1 ++ ks2) a).
Proof.
  intros Hk.
  assert (Hp : sensitivity_points k = 0).
  { rewrite <- DATA_TYPE_POINTS_get. unfold dict_get. by rewrite Hk. }
  assert (Hr : sensitivity_reasons k = []).
  { unfold sensitivity_reasons.
    destruct (assoc k sensitivity_code_table) as [c|] eqn:E; [|done].
    apply assoc_Some_elem_of in E. unfold sensitivity_code_table in E.
    repeat (apply elem_of_cons in E as [[= -> ->]|E]); try (by vm_compute in Hk).
    by apply elem_of_nil in E. }
  apply calculate_risk_score_ext; try (unfold_scorers; reflexivity).
  rewrite !calculate_sensitivity_score_eq.
  cbn [set_data_types data_types data_types_unknown].
  destruct (data_types_unknown a); [done|].
  unfold sum_sensitivity_points.
  rewrite !flat_map_app, !foldr_app. cbn [flat_map foldr].
  by rewrite Hp, Hr.
Qed.

Lemma integration_types_counted a ts :
  length ts = length (integration_types a) ->
  calculate_risk_score (set_integration_types ts a) = calculate_risk_score a.
Proof.
  intros Hlen. apply calculate_risk_score_ext; unfold_scorers; try reflexivity.
  by rewrite Hlen.
Qed.

(** The benign answers are answers of the vocabularies, and the answer set
    made of them scores 0 with no reason code. *)
Example benign_in_vocabulary : Forall (fun f => benign f ∈ vocabulary f) all_fields.
Proof. apply (bool_decide_unpack _). by vm_compute. Qed.

Example benign_answers_score :
  exists r,
    calculate_risk_score benign_answers = Returned r /\
    total r = 0 /\ reason_codes r = [].
Proof. eexists. split; [vm_compute; reflexivity | by vm_compute]. Qed.

(** C8, as stated, fails: "maybe" is no answer of the vocabulary of
    [mfa_available], yet it adds 4 points and the reason code CTRL-NOMFA
    to an answer set that scores 0 with "yes" there. *)
Lemma unrecognized_mfa_answer_is_penalized :
  ("maybe" ∉ vocabulary F_mfa_available) /\
  (exists r,
     calculate_risk_score (set_field F_mfa_available "maybe" benign_answers) = Returned r /\
     total r = 4 /\
     reason_codes r = [reason_for "CTRL-NOMFA" "security" 4]) /\
  (exists r,
     calculate_risk_score
       (set_field F_mfa_available (benign F_mfa_available) benign_answers) = Returned r /\
     total r = 0 /\
     reason_codes r = []) /\
  ~ unrecognized_scores_as_benign.
Proof.
  assert (Hv : "maybe" ∉ vocabulary F_mfa_available).
  { apply (bool_decide_unpack _). by vm_compute. }
  split; [exact Hv|].
  split; [eexists; split; [vm_compute; reflexivity | split; by vm_compute]|].
  split; [eexists; split; [vm_compute; reflexivity | split; by vm_compute]|].
  intros H. specialize (H benign_answers F_mfa_available "maybe" Hv).
  vm_compute in H. discriminate H.
Qed.

Ltac field_block := cbn [contribution get_field]; first [adds_block | contribution_block].

Lemma calculate_exposure_score_eq a :
  calculate_exposure_score a = Returned (exposure_result a).
Proof.
  unfold calculate_exposure_score, exposure_result, clamp_to, contributions, exposure_fields.
  cbv zeta. cbn [foldr fst snd]. apply adds_scorer_body.
  repeat (apply adds_seq; [field_block|]). apply adds_last. field_block.
Qed.

Lemma calculate_security_score_contributions a :
  calculate_security_score a = Returned (security_result a).
Proof.
  unfold calculate_security_score, security_result, clamp_to, contributions, security_fields.
  cbv zeta. cbn [foldr fst snd]. apply adds_scorer_body.
  repeat (apply adds_seq; [field_block|]). apply adds_last. field_block.
Qed.

Lemma calculate_posture_score_eq a :
  calculate_posture_score a = Returned (posture_result a).
Proof.
  unfold calculate_posture_score, posture_result, clamp_to, contributions, posture_fields.
  cbv zeta. cbn [foldr fst snd]. apply adds_scorer_body.
  repeat (apply adds_seq; [field_block|]). apply adds_last. field_block.
Qed.

Lemma calculate_integration_score_contributions a :
  calculate_integration_score a = Returned (integration_result a).
Proof.
  unfold calculate_integration_score, integration_result, clamp_to, contributions,
    integration_fields.
  cbv zeta. cbn [foldr fst snd]. apply adds_scorer_body.
  set (c1 := contribution F_integration_method _).
  set (c2 := contribution F_integration_frequency _).
  set (c3 := contribution F_sis_writeback _).
  set (c4 := breadth_contribution _).
  apply (adds_eq _ (c1.1 + (c2.1 + (c3.1 + c4.1))) (c1.2 ++ c2.2 ++ c3.2 ++ c4.2));
    [|lia|by rewrite app_nil_r, <- !app_assoc].
  subst c1 c2 c3 c4.
  repeat (apply adds_seq; [field_block|]). field_block.
Qed.

(** The engine is the sum of the contributions. *)
Lemma calculate_risk_score_contributions a :
  calculate_risk_score a = Returned (score_from_contributions a).
Proof.
  unfold calculate_risk_score.
  rewrite calculate_sensitivity_score_eq, calculate_exposure_score_eq,
    calculate_security_score_contributions, calculate_posture_score_eq,
    calculate_integration_score_contributions.
  unfold score_from_contributions, sensitivity_result.
  destruct (data_types_unknown a); reflexivity.
Qed.

(** An answer that none of the penalized values of its field matches
    contributes nothing. *)
Lemma contribution_unrecognized f v :
  penalized_unless_yes f = false -> v ∉ vocabulary f -> contribution f v = (0, []).
Proof.
  intros Hf Hv.
  destruct f; try discriminate Hf; cbn [vocabulary] in Hv;
    unfold StorageLocation, DataRegion, DeletionProcess, SSOOption,
      IntegrationMethod, IntegrationFrequency, YesNoUnknown in Hv;
    repeat (apply not_elem_of_cons in Hv as [? Hv]);
    cbn [contribution]; unfold sso_contribution, deletion_policy, str_in;
    cbn [field_contribution existsb];
    repeat match goal with
           | H : ?v <> ?s |- context [?v == ?s] =>
               rewrite (proj2 (String.eqb_neq v s) H)
           end;
    reflexivity.
Qed.

Lemma contribution_benign f : contribution f (benign f) = (0, []).
Proof. destruct f; reflexivity. Qed.

Lemma contribution_not_yes f v :
  penalized_unless_yes f = true -> v <> "yes" ->
  contribution f v = contribution f "no" /\
  0 < (contribution f v).1 /\ (contribution f v).2 <> [].
Proof.
  intros Hf Hv.
  destruct f; try discriminate Hf; cbn [contribution];
    unfold control_contribution, retention_contribution;
    rewrite (proj2 (String.eqb_neq v "yes") Hv); cbn [fst snd];
    (split; [reflexivity | split; [lia | discriminate]]).
Qed.

Lemma unlisted_data_type_contributes_nothing k :
  DATA_TYPE_POINTS !! k = None -> sensitivity_points k = 0 /\ sensitivity_reasons k = [].
Proof.
  intros Hk. split.
  - rewrite <- DATA_TYPE_POINTS_get. unfold dict_get. by rewrite Hk.
  - unfold sensitivity_reasons.
    destruct (assoc k sensitivity_code_table) as [c|] eqn:E; [|done].
    apply assoc_Some_elem_of in E. unfold sensitivity_code_table in E.
    repeat (apply elem_of_cons in E as [[= -> ->]|E]); try (by vm_compute in Hk).
    by apply elem_of_nil in E.
Qed.

(** C8, amended. For every answer set, answers outside the vocabularies
    and unlisted data-type keys included, [calculate_risk_score] returns a
    result and raises nothing.  An answer outside the vocabulary of a
    field other than the six tested with [!= "yes"] scores as the field's
    benign answer does, and a [data_types] key that the points table does
    not list scores as if it were not there: no points, no reason code.
    For [retention_policy_stated], [mfa_available], [rbac_available],
    [encryption_transit], [encryption_rest] and [audit_logs_available]
    every answer other than "yes", recognized or not, scores as "no"
    does.  The entries of [integration_types] are counted and never
    looked at.

    The result is the one [score_from_contributions] builds from the
    contribution of each answer to its scorer, and in it: an answer
    outside the vocabulary of a field other than those six contributes 0
    points and no reason code, as the benign answer of every field does;
    an unlisted [data_types] key has 0 points and no reason code; and for
    those six fields an answer other than "yes" contributes what "no"
    does, points and a reason code. *)
Theorem calculate_risk_score_total (a : AssessmentAnswers) :
  (exists r, calculate_risk_score a = Returned r) /\
  (forall f v,
     penalized_unless_yes f = false -> v ∉ vocabulary f ->
     calculate_risk_score (set_field f v a) =
     calculate_risk_score (set_field f (benign f) a)) /\
  (forall ks1 k ks2,
     DATA_TYPE_POINTS !! k = None ->
     calculate_risk_score (set_data_types (ks1 ++ k :: ks2) a) =
     calculate_risk_score (set_data_types (ks1 ++ ks2) a)) /\
  (forall f v,
     penalized_unless_yes f = true -> v <> "yes" ->
     calculate_risk_score (set_field f v a) =
     calculate_risk_score (set_field f "no" a)) /\
  (forall ts,
     length ts = length (integration_types a) ->
     calculate_risk_score (set_integration_types ts a) = calculate_risk_score a) /\
  calculate_risk_score a = Returned (score_from_contributions a) /\
  calculate_sensitivity_score a = Returned (sensitivity_result a) /\
  calculate_exposure_score a = Returned (exposure_result a) /\
  calculate_security_score a = Returned (security_result a) /\
  calculate_posture_score a = Returned (posture_result a) /\
  calculate_integration_score a = Returned (integration_result a) /\
  (forall f v,
     penalized_unless_yes f = false -> v ∉ vocabulary f ->
     contribution f v = (0, [])) /\
  (forall f, contribution f (benign f) = (0, [])) /\
  (forall k,
     DATA_TYPE_POINTS !! k = None ->
     sensitivity_points k = 0 /\ sensitivity_reasons k = []) /\
  (forall f v,
     penalized_unless_yes f = true -> v <> "yes" ->
     contribution f v = contribution f "no" /\
     0 < (contribution f v).1 /\ (contribution f v).2 <> []).
Proof.
  split; [apply calculate_risk_score_returns|].
  split; [intros f v; apply set_field_unrecognized|].
  split; [intros ks1 k ks2; apply unlisted_data_type_ignored|].
  split; [intros f v; apply set_field_not_yes|].
  split; [intros ts; apply integration_types_counted|].
  split; [apply calculate_risk_score_contributions|].
  split; [rewrite calculate_sensitivity_score_eq; unfold sensitivity_result;
          by destruct (data_types_unknown a)|].
  split; [apply calculate_exposure_score_eq|].
  split; [apply calculate_security_score_contributions|].
  split; [apply calculate_posture_score_eq|].
  split; [apply calculate_integration_score_contributions|].
  split; [exact contribution_unrecognized|].
  split; [exact contribution_benign|].
  split; [exact unlisted_data_type_contributes_nothing|].
  exact contribution_not_yes.
Qed.

Lemma calculate_risk_score_total_witness :
  calculate_risk_score (set_field F_third_party_sharing "perhaps" benign_answers) =
  calculate_risk_score (set_field F_third_party_sharing "no" benign_answers).
Proof.
  apply (proj1 (proj2 (calculate_risk_score_total benign_answers))
           F_third_party_sharing "perhaps").
  - reflexivity.
  - apply (bool_decide_unpack _). vm_compute. exact I.
Defined.

(** ** C9: the default answer set *)

(** C9. The answer set with every field at its default gets a result with
    a total above 0 and the tier "Moderate" or "High". *)
Theorem default_answers_not_risk_free :
  exists r,
    calculate_risk_score default_answers = Returned r /\
    0 < total r /\
    (risk_tier r = "Moderate" \/ risk_tier r = "High").
Proof.
  eexists. split; [vm_compute; reflexivity|].
  cbn [total risk_tier]. split; [lia | by right].
Qed.

(** The default answer set totals 56, in the "High" tier. *)
Example default_answers_total :
  exists r,
    calculate_risk_score default_answers = Returned r /\
    total r = 56 /\ risk_tier r = "High".
Proof. eexists. split; [vm_compute; reflexivity | by vm_compute]. Qed.

(** ** C10: every reason code carries points *)

(** C10. Every answer set gets a result in which every reason code has
    at least one point, and so has every reason code that any of the five
    scorers returns: none is ever emitted with zero points. *)
Theorem reason_codes_points_positive (a : AssessmentAnswers) :
  (exists r,
     calculate_risk_score a = Returned r /\
     Forall (fun rc => 1 <= points rc) (reason_codes r)) /\
  reasons_carry_points (calculate_sensitivity_score a) /\
  reasons_carry_points (calculate_exposure_score a) /\
  reasons_carry_points (calculate_security_score a) /\
  reasons_carry_points (calculate_posture_score a) /\
  reasons_carry_points (calculate_integration_score a).
Proof.
  destruct (sensitivity_bounded a) as (s1 & r1 & H1 & _ & P1).
  destruct (exposure_bounded a) as (s2 & r2 & H2 & _ & P2).
  destruct (security_bounded a) as (s3 & r3 & H3 & _ & P3).
  destruct (posture_bounded a) as (s4 & r4 & H4 & _ & P4).
  destruct (integration_bounded a) as (s5 & r5 & H5 & _ & P5).
  split.
  - eexists.
    split; [exact (calculate_risk_score_eq a _ _ _ _ _ _ _ _ _ _ H1 H2 H3 H4 H5)|].
    cbn [reason_codes]. apply Forall_sort_key_reverse.
    by repeat (apply Forall_app; split).
  - unfold reasons_carry_points. rewrite H1, H2, H3, H4, H5.
    repeat split; by eexists _, _.
Qed.

(** * Further properties *)

(** ** The ledger of a scorer body *)

Lemma sum_points_app rs1 rs2 : sum_points (rs1 ++ rs2) = sum_points rs1 + sum_points rs2.
Proof. unfold sum_points. induction rs1 as [|r rs1 IH]; cbn [foldr app]; lia. Qed.

Lemma sum_points_nonneg rs : Forall (fun rc => 1 <= points rc) rs -> 0 <= sum_points rs.
Proof. unfold sum_points. induction 1; cbn [foldr]; lia. Qed.

Lemma sum_points_elem rs rc :
  Forall (fun rc => 1 <= points rc) rs -> rc ∈ rs -> points rc <= sum_points rs.
Proof.
  intros Hall Hin. induction Hall as [|x rs Hx Hall IH]; [by apply elem_of_nil in Hin|].
  pose proof (sum_points_nonneg rs Hall) as Hpos.
  apply elem_of_cons in Hin as [->|Hin]; unfold sum_points in *; cbn [foldr].
  - lia.
  - specialize (IH Hin). lia.
Qed.

Lemma sum_points_Permutation rs1 rs2 : Permutation rs1 rs2 -> sum_points rs1 = sum_points rs2.
Proof. unfold sum_points. induction 1; cbn [foldr]; lia. Qed.

Section Ledger.
Context (R : Z -> Z -> Prop) (P : ReasonCode -> Prop).
Hypothesis R_refl : forall n, R n n.
Hypothesis R_plus : forall n1 d1 n2 d2, R n1 d1 -> R n2 d2 -> R (n1 + n2) (d1 + d2).

Lemma ledger_pass : ledger R P 0 pass.
Proof. exists 0, []. repeat split; [apply adds_pass | apply R_refl | lia | lia | constructor]. Qed.

Lemma ledger_add_score n : R 0 n -> 0 <= n -> ledger R P n (add_score n).
Proof.
  intros HR Hn. exists n, [].
  repeat split; [apply adds_add_score | exact HR | lia | lia | constructor].
Qed.

Lemma ledger_add_then_append n c cat :
  is_Some (REASON_TEMPLATES !! c) -> P (reason_for c cat n) -> 0 <= n ->
  ledger R P n (add_score n ;; append_reason c cat n).
Proof.
  intros Hc HP Hn. exists n, [reason_for c cat n].
  repeat split; [by apply adds_add_then_append | | lia | lia | by repeat constructor].
  unfold sum_points, reason_for. cbn [foldr points].
  replace (n + 0) with n by lia. apply R_refl.
Qed.

Lemma ledger_seq B1 B2 m1 m2 :
  ledger R P B1 m1 -> ledger R P B2 m2 -> ledger R P (B1 + B2) (m1 ;; m2).
Proof.
  intros (d1 & r1 & H1 & HR1 & Hd1 & Hr1) (d2 & r2 & H2 & HR2 & Hd2 & Hr2).
  exists (d1 + d2), (r1 ++ r2).
  repeat split; [by apply adds_seq | | lia | lia | by apply Forall_app].
  rewrite sum_points_app. by apply R_plus.
Qed.

Lemma ledger_weaken B B' m : ledger R P B m -> B <= B' -> ledger R P B' m.
Proof.
  intros (d & rs & H & HR & Hd & Hrs) HB. exists d, rs. repeat split; try done; lia.
Qed.

Lemma ledger_if (b : bool) B1 B2 m1 m2 :
  ledger R P B1 m1 -> ledger R P B2 m2 ->
  ledger R P (Z.max B1 B2) (if b then m1 else m2).
Proof. intros H1 H2. destruct b; eapply ledger_weaken; eauto; lia. Qed.

Lemma ledger_scorer_body B cap m :
  ledger R P B m ->
  exists d rs,
    scorer_body cap m = Returned (Z.min d cap, rs) /\
    R (sum_points rs) d /\ 0 <= d <= B /\ Forall P rs.
Proof.
  intros (d & rs & H & HR & Hd & Hrs). exists d, rs.
  split; [by apply adds_scorer_body | done].
Qed.
End Ledger.

Ltac tag_holds := unfold tagged, reason_for; cbn [category code points]; repeat split; (reflexivity || lia).

Ltac ledger_step Hrefl Hplus :=
  first
    [ apply (ledger_pass _ _ Hrefl)
    | apply (ledger_add_then_append _ _ Hrefl); [template_present | tag_holds | lia]
    | apply (ledger_seq _ _ Hplus)
    | apply ledger_if
    | apply ledger_add_score; [lia | lia] ].

Lemma Z_le_plus n1 d1 n2 d2 : n1 <= d1 -> n2 <= d2 -> n1 + n2 <= d1 + d2.
Proof. lia. Qed.

Lemma eq_plus (n1 d1 n2 d2 : Z) : n1 = d1 -> n2 = d2 -> n1 + n2 = d1 + d2.
Proof. lia. Qed.

(** The exposure body: at most 30 added, the reason codes covered. *)
Lemma exposure_ledger a :
  exists d rs,
    calculate_exposure_score a = Returned (Z.min d 25, rs) /\
    sum_points rs <= d /\ 0 <= d <= 30 /\ Forall (tagged "exposure" "EXPO-") rs.
Proof.
  apply (ledger_scorer_body Z.le).
  eapply ledger_weaken; [repeat ledger_step Z.le_refl Z_le_plus | by vm_compute].
Qed.

Lemma security_ledger a :
  exists d rs,
    calculate_security_score a = Returned (Z.min d 20, rs) /\
    sum_points rs = d /\ 0 <= d <= 20 /\ Forall (tagged "security" "CTRL-") rs.
Proof.
  apply (ledger_scorer_body eq).
  eapply ledger_weaken;
    [repeat ledger_step (fun n : Z => eq_refl n) eq_plus | by vm_compute].
Qed.

Lemma posture_ledger a :
  exists d rs,
    calculate_posture_score a = Returned (Z.min d 15, rs) /\
    sum_points rs = d /\ 0 <= d <= 12 /\ Forall (tagged "posture" "POST-") rs.
Proof.
  apply (ledger_scorer_body eq).
  eapply ledger_weaken;
    [repeat ledger_step (fun n : Z => eq_refl n) eq_plus | by vm_compute].
Qed.

Lemma integration_ledger a :
  exists d rs,
    calculate_integration_score a = Returned (Z.min d 10, rs) /\
    sum_points rs <= d /\ 0 <= d <= 11 /\ Forall (tagged "integration" "INT-") rs.
Proof.
  apply (ledger_scorer_body Z.le).
  eapply ledger_weaken; [repeat ledger_step Z.le_refl Z_le_plus | by vm_compute].
Qed.

Lemma sensitivity_points_nonneg k : 0 <= sensitivity_points k.
Proof. rewrite <- DATA_TYPE_POINTS_get. apply DATA_TYPE_POINTS_nonneg. Qed.

Lemma sensitivity_code_table_tagged :
  Forall (fun e => tagged "sensitivity" "SENS-"
                     (reason_for e.2 "sensitivity" (sensitivity_points e.1)))
    sensitivity_code_table.
Proof. unfold sensitivity_code_table. repeat constructor; by vm_compute. Qed.

Lemma sensitivity_reasons_ledger k :
  sum_points (sensitivity_reasons k) <= sensitivity_points k /\
  Forall (tagged "sensitivity" "SENS-") (sensitivity_reasons k).
Proof.
  pose proof (sensitivity_points_nonneg k) as Hk.
  unfold sensitivity_reasons.
  destruct (assoc k sensitivity_code_table) as [c|] eqn:E.
  - split; [unfold sum_points, reason_for; cbn [foldr points]; lia|].
    apply assoc_Some_elem_of in E.
    pose proof sensitivity_code_table_tagged as Htab.
    rewrite Forall_forall in Htab. specialize (Htab _ E).
    constructor; [exact Htab | constructor].
  - split; [unfold sum_points; cbn [foldr]; lia | constructor].
Qed.

Lemma sum_sensitivity_points_nonneg ks : 0 <= sum_sensitivity_points ks.
Proof.
  unfold sum_sensitivity_points. induction ks as [|k ks IH]; cbn [foldr]; [lia|].
  pose proof (sensitivity_points_nonneg k). lia.
Qed.

Lemma sensitivity_ledger a :
  exists d rs,
    calculate_sensitivity_score a = Returned (Z.min d 30, rs) /\
    sum_points rs <= d /\ 0 <= d /\ Forall (tagged "sensitivity" "SENS-") rs.
Proof.
  rewrite calculate_sensitivity_score_eq. destruct (data_types_unknown a).
  - exists 10, [reason_for "SENS-UNK" "sensitivity" 10].
    repeat split; try (by vm_compute). repeat constructor; by vm_compute.
  - exists (sum_sensitivity_points (data_types a)),
      (flat_map sensitivity_reasons (data_types a)).
    split; [done|]. split; [|split; [apply sum_sensitivity_points_nonneg|]].
    + unfold sum_sensitivity_points.
      induction (data_types a) as [|k ks IH]; cbn [flat_map foldr]; [by vm_compute|].
      rewrite sum_points_app. pose proof (proj1 (sensitivity_reasons_ledger k)). lia.
    + induction (data_types a) as [|k ks IH]; cbn [flat_map]; [constructor|].
      apply Forall_app. split; [apply sensitivity_reasons_ledger | done].
Qed.

Lemma tagged_points cat prefix rs :
  Forall (tagged cat prefix) rs -> Forall (fun rc => 1 <= points rc) rs.
Proof. intros H. eapply Forall_impl; [exact H|]. intros rc (_ & _ & Hp). cbn. lia. Qed.

Lemma tagged_points_elem cat prefix rs rc cap s :
  Forall (tagged cat prefix) rs -> rc ∈ rs -> 10 <= cap ->
  Z.min (sum_points rs) cap <= s -> points rc <= s.
Proof.
  intros Hall Hin Hcap Hs.
  pose proof (sum_points_elem rs rc (tagged_points _ _ _ Hall) Hin).
  rewrite Forall_forall in Hall. destruct (Hall rc Hin) as (_ & _ & Hp). lia.
Qed.

(** ** The sub-scores and the points of their reason codes *)

(** X1. The security sub-score is exactly the sum of the points of the
    reason codes the scorer returns, and that sum never exceeds 20: the
    clamp of the security scorer never cuts anything. *)
Theorem security_score_explained (a : AssessmentAnswers) :
  explained_by_reasons 20 (calculate_security_score a).
Proof.
  destruct (security_ledger a) as (d & rs & H & Hsum & Hd & _).
  exists d, rs. rewrite H. split; [f_equal; f_equal; lia | split; [done|lia]].
Qed.

(** X2. The vendor-posture sub-score is exactly the sum of the points of
    the reason codes the scorer returns and never exceeds 12: the cap of
    15 is out of reach. *)
Theorem posture_score_explained (a : AssessmentAnswers) :
  explained_by_reasons 12 (calculate_posture_score a).
Proof.
  destruct (posture_ledger a) as (d & rs & H & Hsum & Hd & _).
  exists d, rs. rewrite H. split; [f_equal; f_equal; lia | split; [done|lia]].
Qed.

(** X3. No scorer lists more points than it scores, unless its cap cuts
    the score: each sub-score is at least the sum of the points of its
    reason codes, or the cap if that sum is above the cap. *)
Theorem sub_scores_cover_reasons (a : AssessmentAnswers) :
  covers_reasons 30 (calculate_sensitivity_score a) /\
  covers_reasons 25 (calculate_exposure_score a) /\
  covers_reasons 20 (calculate_security_score a) /\
  covers_reasons 15 (calculate_posture_score a) /\
  covers_reasons 10 (calculate_integration_score a).
Proof.
  destruct (sensitivity_ledger a) as (d1 & r1 & H1 & S1 & B1 & _).
  destruct (exposure_ledger a) as (d2 & r2 & H2 & S2 & B2 & _).
  destruct (security_ledger a) as (d3 & r3 & H3 & S3 & B3 & _).
  destruct (posture_ledger a) as (d4 & r4 & H4 & S4 & B4 & _).
  destruct (integration_ledger a) as (d5 & r5 & H5 & S5 & B5 & _).
  unfold covers_reasons. rewrite H1, H2, H3, H4, H5.
  repeat split; eexists _, _; (split; [reflexivity | lia]).
Qed.

(** The five scorers at once: what each returns, its ledger and its tags. *)
Lemma scorer_ledgers a :
  exists s1 r1 s2 r2 s3 r3 s4 r4 s5 r5,
    calculate_sensitivity_score a = Returned (s1, r1) /\
    calculate_exposure_score a = Returned (s2, r2) /\
    calculate_security_score a = Returned (s3, r3) /\
    calculate_posture_score a = Returned (s4, r4) /\
    calculate_integration_score a = Returned (s5, r5) /\
    (Z.min (sum_points r1) 30 <= s1 <= 30 /\ Forall (tagged "sensitivity" "SENS-") r1) /\
    (Z.min (sum_points r2) 25 <= s2 <= 25 /\ Forall (tagged "exposure" "EXPO-") r2) /\
    (Z.min (sum_points r3) 20 <= s3 <= 20 /\ Forall (tagged "security" "CTRL-") r3) /\
    (Z.min (sum_points r4) 15 <= s4 <= 15 /\ Forall (tagged "posture" "POST-") r4) /\
    (Z.min (sum_points r5) 10 <= s5 <= 10 /\ Forall (tagged "integration" "INT-") r5) /\
    0 <= s1 /\ 0 <= s2 /\ 0 <= s3 /\ 0 <= s4 /\ 0 <= s5.
Proof.
  destruct (sensitivity_ledger a) as (d1 & r1 & H1 & S1 & B1 & T1).
  destruct (exposure_ledger a) as (d2 & r2 & H2 & S2 & B2 & T2).
  destruct (security_ledger a) as (d3 & r3 & H3 & S3 & B3 & T3).
  destruct (posture_ledger a) as (d4 & r4 & H4 & S4 & B4 & T4).
  destruct (integration_ledger a) as (d5 & r5 & H5 & S5 & B5 & T5).
  exists (Z.min d1 30), r1, (Z.min d2 25), r2, (Z.min d3 20), r3,
    (Z.min d4 15), r4, (Z.min d5 10), r5.
  repeat split; first [done | lia].
Qed.

(** X4. No reason code of a result carries more points than the total,
    so a total of 0 comes with no reason code at all. *)
Theorem reason_points_within_total (a : AssessmentAnswers) :
  exists r,
    calculate_risk_score a = Returned r /\
    Forall (fun rc => 1 <= points rc <= total r) (reason_codes r) /\
    (total r = 0 -> reason_codes r = []).
Proof.
  destruct (scorer_ledgers a)
    as (s1 & r1 & s2 & r2 & s3 & r3 & s4 & r4 & s5 & r5 &
        H1 & H2 & H3 & H4 & H5 & [C1 T1] & [C2 T2] & [C3 T3] & [C4 T4] & [C5 T5] &
        P1 & P2 & P3 & P4 & P5).
  eexists.
  split; [exact (calculate_risk_score_eq a _ _ _ _ _ _ _ _ _ _ H1 H2 H3 H4 H5)|].
  cbn [reason_codes total].
  assert (Hall : Forall (fun rc => 1 <= points rc <= Z.min (s1 + s2 + s3 + s4 + s5) 100)
                   (sort_key_reverse points (r1 ++ r2 ++ r3 ++ r4 ++ r5))).
  { apply Forall_sort_key_reverse.
    repeat (apply Forall_app; split);
      apply Forall_forall; intros rc Hrc;
      match goal with
      | T : Forall (tagged ?c ?p) ?rs, Hin : rc ∈ ?rs |- _ =>
          pose proof (tagged_points_elem c p rs rc) as Hle;
          pose proof (proj1 (Forall_forall _ _) T rc Hin) as (_ & _ & Hp)
      end.
    - specialize (Hle 30 s1 T1 Hrc). lia.
    - specialize (Hle 25 s2 T2 Hrc). lia.
    - specialize (Hle 20 s3 T3 Hrc). lia.
    - specialize (Hle 15 s4 T4 Hrc). lia.
    - specialize (Hle 10 s5 T5 Hrc). lia. }
  split; [exact Hall|].
  intros Hzero. rewrite Hzero in Hall.
  destruct (sort_key_reverse points (r1 ++ r2 ++ r3 ++ r4 ++ r5)) as [|rc rest]; [done|].
  apply Forall_cons in Hall as [Hrc _]. lia.
Qed.

(** X5. Every reason code is of the category of the scorer that emitted
    it, with a code that starts with the prefix of that category, and
    carries between 1 and 10 points: the sensitivity scorer returns only
    sensitivity codes starting with SENS-, the exposure scorer exposure
    codes starting with EXPO-, the security scorer security codes
    starting with CTRL-, the posture scorer posture codes starting with
    POST-, the integration scorer integration codes starting with INT-.
    The reason codes of the result are those of the five scorers, so each
    is of one of the five kinds. *)
Theorem reason_codes_categorized (a : AssessmentAnswers) :
  exists r sens_reasons expo_reasons sec_reasons post_reasons int_reasons,
    calculate_risk_score a = Returned r /\
    returns_reasons (calculate_sensitivity_score a) sens_reasons /\
    returns_reasons (calculate_exposure_score a) expo_reasons /\
    returns_reasons (calculate_security_score a) sec_reasons /\
    returns_reasons (calculate_posture_score a) post_reasons /\
    returns_reasons (calculate_integration_score a) int_reasons /\
    Forall (tagged "sensitivity" "SENS-") sens_reasons /\
    Forall (tagged "exposure" "EXPO-") expo_reasons /\
    Forall (tagged "security" "CTRL-") sec_reasons /\
    Forall (tagged "posture" "POST-") post_reasons /\
    Forall (tagged "integration" "INT-") int_reasons /\
    Permutation (reason_codes r)
      (sens_reasons ++ expo_reasons ++ sec_reasons ++ post_reasons ++ int_reasons) /\
    Forall (fun rc =>
              tagged "sensitivity" "SENS-" rc \/ tagged "exposure" "EXPO-" rc \/
              tagged "security" "CTRL-" rc \/ tagged "posture" "POST-" rc \/
              tagged "integration" "INT-" rc)
      (reason_codes r).
Proof.
  destruct (scorer_ledgers a)
    as (s1 & r1 & s2 & r2 & s3 & r3 & s4 & r4 & s5 & r5 &
        H1 & H2 & H3 & H4 & H5 & [_ T1] & [_ T2] & [_ T3] & [_ T4] & [_ T5] & _).
  eexists _, r1, r2, r3, r4, r5.
  split; [exact (calculate_risk_score_eq a _ _ _ _ _ _ _ _ _ _ H1 H2 H3 H4 H5)|].
  rewrite H1, H2, H3, H4, H5. cbn [reason_codes].
  repeat (split; [first [by eexists | done]|]).
  split; [apply sort_key_reverse_perm|].
  apply Forall_sort_key_reverse.
  repeat (apply Forall_app; split);
    (eapply Forall_impl; [eassumption|]); intros rc Hrc; cbn; tauto.
Qed.

(** ** The security scorer *)

(** What [calculate_security_score] returns, in closed form. *)
Lemma calculate_security_score_eq a :
  calculate_security_score a =
    Returned
      (Z.min ((sso_contribution (sso_supported a)).1 +
              ((control_contribution 4 "CTRL-NOMFA" (mfa_available a)).1 +
               ((control_contribution 3 "CTRL-NORBAC" (rbac_available a)).1 +
                ((control_contribution 3 "CTRL-NOTRANS" (encryption_transit a)).1 +
                 ((control_contribution 3 "CTRL-NOREST" (encryption_rest a)).1 +
                  (control_contribution 3 "CTRL-NOAUDIT" (audit_logs_available a)).1))))) 20,
       (sso_contribution (sso_supported a)).2 ++
       (control_contribution 4 "CTRL-NOMFA" (mfa_available a)).2 ++
       (control_contribution 3 "CTRL-NORBAC" (rbac_available a)).2 ++
       (control_contribution 3 "CTRL-NOTRANS" (encryption_transit a)).2 ++
       (control_contribution 3 "CTRL-NOREST" (encryption_rest a)).2 ++
       (control_contribution 3 "CTRL-NOAUDIT" (audit_logs_available a)).2).
Proof.
  unfold calculate_security_score. apply adds_scorer_body.
  repeat (apply adds_seq; [contribution_block|]). contribution_block.
Qed.

Lemma control_contribution_zero pts c v :
  0 < pts ->
  0 <= (control_contribution pts c v).1 /\
  ((control_contribution pts c v).1 = 0 <-> v = "yes") /\
  (v = "yes" -> (control_contribution pts c v).2 = []).
Proof.
  intros Hp. unfold control_contribution.
  destruct (String.eqb_spec v "yes") as [->|Hne]; cbn [fst snd];
    repeat split; try done; try lia.
Qed.

Lemma sso_contribution_zero v :
  0 <= (sso_contribution v).1 /\
  ((sso_contribution v).1 = 0 <-> v <> "none" /\ v <> "unknown") /\
  (v <> "none" -> v <> "unknown" -> (sso_contribution v).2 = []).
Proof.
  unfold sso_contribution, str_in. cbn [existsb].
  destruct (String.eqb_spec v "none") as [Hn|Hn];
    destruct (String.eqb_spec v "unknown") as [Hu|Hu];
    cbn [orb fst snd]; repeat split; try done; try lia; try tauto.
Qed.

(** X6. The security scorer returns 0 exactly for the answer sets with
    every control in place, and then it returns no reason code. *)
Theorem security_zero_iff_all_controls (a : AssessmentAnswers) :
  (returns_score (calculate_security_score a) 0 <-> all_controls_present a) /\
  (all_controls_present a -> calculate_security_score a = Returned (0, [])).
Proof.
  rewrite calculate_security_score_eq. unfold returns_score, all_controls_present.
  destruct (sso_contribution_zero (sso_supported a)) as (N0 & Z0 & E0).
  destruct (control_contribution_zero 4 "CTRL-NOMFA" (mfa_available a)) as (N1 & Z1 & E1); [lia|].
  destruct (control_contribution_zero 3 "CTRL-NORBAC" (rbac_available a)) as (N2 & Z2 & E2); [lia|].
  destruct (control_contribution_zero 3 "CTRL-NOTRANS" (encryption_transit a))
    as (N3 & Z3 & E3); [lia|].
  destruct (control_contribution_zero 3 "CTRL-NOREST" (encryption_rest a))
    as (N4 & Z4 & E4); [lia|].
  destruct (control_contribution_zero 3 "CTRL-NOAUDIT" (audit_logs_available a))
    as (N5 & Z5 & E5); [lia|].
  split; [split|].
  - intros [rs [= Hs _]].
    assert ((sso_contribution (sso_supported a)).1 = 0) by lia.
    assert ((control_contribution 4 "CTRL-NOMFA" (mfa_available a)).1 = 0) by lia.
    assert ((control_contribution 3 "CTRL-NORBAC" (rbac_available a)).1 = 0) by lia.
    assert ((control_contribution 3 "CTRL-NOTRANS" (encryption_transit a)).1 = 0) by lia.
    assert ((control_contribution 3 "CTRL-NOREST" (encryption_rest a)).1 = 0) by lia.
    assert ((control_contribution 3 "CTRL-NOAUDIT" (audit_logs_available a)).1 = 0) by lia.
    tauto.
  - intros (? & ? & ? & ? & ? & ? & ?). eexists. f_equal. f_equal.
    rewrite (proj2 Z0), (proj2 Z1), (proj2 Z2), (proj2 Z3), (proj2 Z4), (proj2 Z5) by tauto.
    reflexivity.
  - intros (? & ? & ? & ? & ? & ? & ?).
    rewrite (proj2 Z0), (proj2 Z1), (proj2 Z2), (proj2 Z3), (proj2 Z4), (proj2 Z5) by tauto.
    rewrite E0, E1, E2, E3, E4, E5 by done. reflexivity.
Qed.

(** ** The integration scorer *)

(** What [calculate_integration_score] returns, contribution by
    contribution. *)
Lemma calculate_integration_score_eq a :
  calculate_integration_score a =
    Returned
      (Z.min
         ((field_contribution "integration"
             [("api_key", 3, Some "INT-APIKEY"); ("unknown", 2, None)]
             (integration_method a)).1 +
          ((field_contribution "integration"
              [("realtime", 3, Some "INT-REALTIME"); ("unknown", 1, None)]
              (integration_frequency a)).1 +
           ((field_contribution "integration"
               [("yes", 3, Some "INT-SISWB"); ("unknown", 2, None)]
               (sis_writeback a)).1 +
            (breadth_contribution (integration_types a)).1))) 10,
       (field_contribution "integration"
          [("api_key", 3, Some "INT-APIKEY"); ("unknown", 2, None)]
          (integration_method a)).2 ++
       (field_contribution "integration"
          [("realtime", 3, Some "INT-REALTIME"); ("unknown", 1, None)]
          (integration_frequency a)).2 ++
       (field_contribution "integration"
          [("yes", 3, Some "INT-SISWB"); ("unknown", 2, None)]
          (sis_writeback a)).2 ++
       (breadth_contribution (integration_types a)).2).
Proof.
  unfold calculate_integration_score. apply adds_scorer_body.
  repeat (apply adds_seq; [adds_block|]). contribution_block.
Qed.

(** X7. The integration scorer returns, for every answer set, the clamp
    to at most 10 of the independent contributions of its three answers
    (method api_key 3 with INT-APIKEY, unknown 2; frequency realtime 3 with
    INT-REALTIME, unknown 1; SIS writeback yes 3 with INT-SISWB, unknown 2;
    anything else 0) plus 2 with INT-MULTI when [integration_types] has
    three entries or more. *)
Theorem calculate_integration_score_spec (a : AssessmentAnswers) :
  calculate_integration_score a = Returned (integration_spec a).
Proof.
  rewrite calculate_integration_score_eq.
  unfold integration_spec, clamp_to, independent_sum, integration_policy.
  cbv zeta. cbn [foldr fst snd].
  f_equal. f_equal; [f_equal; lia|].
  by rewrite app_nil_r, <- !app_assoc.
Qed.

(** Case analysis on the answers the integration scorer compares. *)
Ltac integration_cases a :=
  unfold breadth_contribution;
  cbn [fst snd field_contribution];
  destruct (String.eqb_spec (integration_method a) "api_key");
  [|destruct (String.eqb_spec (integration_method a) "unknown")];
  (destruct (String.eqb_spec (integration_frequency a) "realtime");
   [|destruct (String.eqb_spec (integration_frequency a) "unknown")]);
  (destruct (String.eqb_spec (sis_writeback a) "yes");
   [|destruct (String.eqb_spec (sis_writeback a) "unknown")]);
  destruct (Z.leb_spec 3 (Z.of_nat (length (integration_types a))));
  cbn [fst snd app]; unfold sum_points, reason_for; cbn [foldr points].

(** X8. The integration scorer lists more points than it scores in one
    case only: with an API key, real-time synchronisation, SIS writeback
    and three integration types or more, the four reason codes carry 11
    points and the sub-score is 10.  In every other case the sub-score
    covers the points of its reason codes. *)
Theorem integration_cap_cuts_only_widest (a : AssessmentAnswers) :
  exists s rs,
    calculate_integration_score a = Returned (s, rs) /\
    (s < sum_points rs <-> widest_integration a) /\
    (widest_integration a -> s = 10 /\ sum_points rs = 11).
Proof.
  rewrite calculate_integration_score_eq. eexists _, _. split; [reflexivity|].
  unfold widest_integration.
  integration_cases a;
    (split; [split; [intros; first [lia | repeat split; (done || lia)]
                    | intros (? & ? & ? & ?); first [lia | congruence]]
            | intros (? & ? & ? & ?); first [lia | congruence]]).
Qed.

(** X9. The breadth penalty goes by the number of entries of
    [integration_types], whatever they are and repeated or not: the
    reason code INT-MULTI is returned exactly when there are three
    entries or more. *)
Theorem integration_breadth_by_count (a : AssessmentAnswers) :
  exists s rs,
    calculate_integration_score a = Returned (s, rs) /\
    (reason_for "INT-MULTI" "integration" 2 ∈ rs <->
     (3 <= length (integration_types a))%nat).
Proof.
  rewrite calculate_integration_score_eq. eexists _, _. split; [reflexivity|].
  integration_cases a;
    (split;
     [ intros Hin; first [lia | exfalso; revert Hin; apply (bool_decide_unpack _); by vm_compute]
     | intros Hlen; first [lia | apply (bool_decide_unpack _); by vm_compute] ]).
Qed.

(** ** The sensitivity scorer and the list of data types *)

Lemma other_scorers_set_data_types a ks :
  calculate_exposure_score (set_data_types ks a) = calculate_exposure_score a /\
  calculate_security_score (set_data_types ks a) = calculate_security_score a /\
  calculate_posture_score (set_data_types ks a) = calculate_posture_score a /\
  calculate_integration_score (set_data_types ks a) = calculate_integration_score a.
Proof. repeat split; unfold_scorers; reflexivity. Qed.

Lemma sum_sensitivity_points_app ks1 ks2 :
  sum_sensitivity_points (ks1 ++ ks2) = sum_sensitivity_points ks1 + sum_sensitivity_points ks2.
Proof.
  unfold sum_sensitivity_points. induction ks1 as [|k ks1 IH]; cbn [foldr app]; lia.
Qed.

Lemma sum_sensitivity_points_Permutation ks1 ks2 :
  Permutation ks1 ks2 -> sum_sensitivity_points ks1 = sum_sensitivity_points ks2.
Proof. unfold sum_sensitivity_points. induction 1; cbn [foldr]; lia. Qed.

Lemma flat_map_Permutation {A B : Type} (f : A -> list B) l1 l2 :
  Permutation l1 l2 -> Permutation (flat_map f l1) (flat_map f l2).
Proof.
  induction 1 as [|x l1 l2 _ IH|x y l|l1 l2 l3 _ IH1 _ IH2]; cbn [flat_map].
  - done.
  - by apply Permutation_app_head.
  - rewrite !app_assoc. apply Permutation_app_tail, Permutation_app_comm.
  - by etransitivity.
Qed.

(** The result for [a] and for [a] with another list of data types, side
    by side: the four other scorers do not look at the list. *)
Lemma risk_scores_side_by_side a ks :
  exists s1 r1 s1' r1' s2 r2 s3 r3 s4 r4 s5 r5,
    calculate_sensitivity_score a = Returned (s1, r1) /\
    calculate_sensitivity_score (set_data_types ks a) = Returned (s1', r1') /\
    0 <= s2 /\ 0 <= s3 /\ 0 <= s4 /\ 0 <= s5 /\
    calculate_risk_score a =
      Returned {|
        total := Z.min (s1 + s2 + s3 + s4 + s5) 100;
        breakdown :=
          list_to_map [("sensitivity", s1); ("exposure", s2); ("security_controls", s3);
                       ("vendor_posture", s4); ("integration_blast_radius", s5)];
        reason_codes := sort_key_reverse points (r1 ++ r2 ++ r3 ++ r4 ++ r5);
        risk_tier := determine_risk_tier (Z.min (s1 + s2 + s3 + s4 + s5) 100)
      |} /\
    calculate_risk_score (set_data_types ks a) =
      Returned {|
        total := Z.min (s1' + s2 + s3 + s4 + s5) 100;
        breakdown :=
          list_to_map [("sensitivity", s1'); ("exposure", s2); ("security_controls", s3);
                       ("vendor_posture", s4); ("integration_blast_radius", s5)];
        reason_codes := sort_key_reverse points (r1' ++ r2 ++ r3 ++ r4 ++ r5);
        risk_tier := determine_risk_tier (Z.min (s1' + s2 + s3 + s4 + s5) 100)
      |}.
Proof.
  destruct (sensitivity_bounded a) as (s1 & r1 & H1 & _).
  destruct (sensitivity_bounded (set_data_types ks a)) as (s1' & r1' & H1' & _).
  destruct (exposure_bounded a) as (s2 & r2 & H2 & B2 & _).
  destruct (security_bounded a) as (s3 & r3 & H3 & B3 & _).
  destruct (posture_bounded a) as (s4 & r4 & H4 & B4 & _).
  destruct (integration_bounded a) as (s5 & r5 & H5 & B5 & _).
  destruct (other_scorers_set_data_types a ks) as (E2 & E3 & E4 & E5).
  exists s1, r1, s1', r1', s2, r2, s3, r3, s4, r4, s5, r5.
  repeat (split; [first [done | lia]|]).
  split; [by apply calculate_risk_score_eq|].
  apply calculate_risk_score_eq; [done|rewrite E2|rewrite E3|rewrite E4|rewrite E5]; done.
Qed.

(** X10. One more entry in [data_types] never lowers the sensitivity
    sub-score nor the total. *)
Theorem more_data_types_never_lower (a : AssessmentAnswers) (k : string) :
  exists r r' s s',
    calculate_risk_score a = Returned r /\
    calculate_risk_score (set_data_types (data_types a ++ [k]) a) = Returned r' /\
    returns_score (calculate_sensitivity_score a) s /\
    returns_score (calculate_sensitivity_score (set_data_types (data_types a ++ [k]) a)) s' /\
    s <= s' /\ total r <= total r'.
Proof.
  destruct (risk_scores_side_by_side a (data_types a ++ [k]))
    as (s1 & r1 & s1' & r1' & s2 & r2 & s3 & r3 & s4 & r4 & s5 & r5 &
        H1 & H1' & B2 & B3 & B4 & B5 & Hr & Hr').
  eexists _, _, s1, s1'. rewrite Hr, Hr', H1, H1'.
  repeat (split; [first [reflexivity | by eexists]|]).
  rewrite calculate_sensitivity_score_eq in H1, H1'.
  cbn [set_data_types data_types data_types_unknown total] in *.
  pose proof (sensitivity_points_nonneg k) as Hk.
  destruct (data_types_unknown a); injection H1 as <- <-; injection H1' as <- <-.
  - lia.
  - rewrite sum_sensitivity_points_app.
    change (sum_sensitivity_points [k]) with (sensitivity_points k + 0). lia.
Qed.

(** X11. The order of [data_types] does not matter: listed in another
    order they give the same total, breakdown and tier, and the same
    reason codes. *)
Theorem data_types_order_irrelevant (a : AssessmentAnswers) (ks : list string) :
  Permutation (data_types a) ks ->
  exists r r',
    calculate_risk_score a = Returned r /\
    calculate_risk_score (set_data_types ks a) = Returned r' /\
    total r' = total r /\
    breakdown r' = breakdown r /\
    risk_tier r' = risk_tier r /\
    Permutation (reason_codes r') (reason_codes r).
Proof.
  intros Hperm.
  destruct (risk_scores_side_by_side a ks)
    as (s1 & r1 & s1' & r1' & s2 & r2 & s3 & r3 & s4 & r4 & s5 & r5 &
        H1 & H1' & B2 & B3 & B4 & B5 & Hr & Hr').
  eexists _, _. rewrite Hr, Hr'.
  split; [reflexivity|]. split; [reflexivity|].
  rewrite calculate_sensitivity_score_eq in H1, H1'.
  cbn [set_data_types data_types data_types_unknown total breakdown risk_tier reason_codes] in *.
  assert (Hs : s1' = s1 /\ Permutation r1' r1).
  { destruct (data_types_unknown a); injection H1 as <- <-; injection H1' as <- <-.
    - done.
    - split; [by rewrite (sum_sensitivity_points_Permutation _ _ Hperm)|].
      symmetry. by apply flat_map_Permutation. }
  destruct Hs as [-> Hp].
  repeat (split; [reflexivity|]).
  rewrite !sort_key_reverse_perm. by apply Permutation_app_tail.
Qed.

Lemma data_types_order_irrelevant_witness :
  exists r r',
    calculate_risk_score (answers_with_data_types ["health"; "iep_504"] false) = Returned r /\
    calculate_risk_score
      (set_data_types ["iep_504"; "health"]
         (answers_with_data_types ["health"; "iep_504"] false)) = Returned r' /\
    total r' = total r /\
    breakdown r' = breakdown r /\
    risk_tier r' = risk_tier r /\
    Permutation (reason_codes r') (reason_codes r).
Proof.
  apply (data_types_order_irrelevant
           (answers_with_data_types ["health"; "iep_504"] false) ["iep_504"; "health"]).
  apply perm_swap.
Defined.

(** X12. Setting [data_types_unknown] replaces the data-type points by a
    flat 10: for the same list of data types, worth more than 10 points
    together, the sensitivity sub-score is lower with the flag than
    without. *)
Theorem unknown_flag_lowers_sensitivity (a a' : AssessmentAnswers) :
  data_types a' = data_types a ->
  data_types_unknown a = false ->
  data_types_unknown a' = true ->
  10 < sum_sensitivity_points (data_types a) ->
  exists s,
    returns_score (calculate_sensitivity_score a) s /\
    returns_score (calculate_sensitivity_score a') 10 /\
    10 < s.
Proof.
  intros Hks Hu Hu' Hsum. rewrite !calculate_sensitivity_score_eq, Hu, Hu'.
  eexists. split; [by eexists|]. split; [by eexists|]. lia.
Qed.

Lemma unknown_flag_lowers_sensitivity_witness :
  exists s,
    returns_score
      (calculate_sensitivity_score (answers_with_data_types ["iep_504"; "health"] false)) s /\
    returns_score
      (calculate_sensitivity_score (answers_with_data_types ["iep_504"; "health"] true)) 10 /\
    10 < s.
Proof.
  apply (unknown_flag_lowers_sensitivity
           (answers_with_data_types ["iep_504"; "health"] false)
           (answers_with_data_types ["iep_504"; "health"] true));
    [reflexivity | reflexivity | reflexivity | vm_compute; reflexivity].
Defined.

(** ** Serialization of the reason codes *)

Lemma cons_eq_inv {A : Type} (x y : A) (l l' : list A) :
  x :: l = y :: l' -> x = y /\ l = l'.
Proof.
  intros H. split; [exact (f_equal (hd x) H) | exact (f_equal (@tl A) H)].
Qed.

(** X13. [reason_codes_to_json] loses nothing: two lists of reason codes
    with the same serialization are the same list. *)
Theorem reason_codes_to_json_inj (rcs1 rcs2 : list ReasonCode) :
  reason_codes_to_json rcs1 = reason_codes_to_json rcs2 -> rcs1 = rcs2.
Proof.
  unfold reason_codes_to_json. revert rcs2.
  induction rcs1 as [|rc1 rcs1 IH]; intros [|rc2 rcs2]; cbn [map]; try done.
  intros [Hd Hrest]%cons_eq_inv. f_equal; [|by apply IH].
  pose proof (f_equal (fun d => d !! "code") Hd) as Hc.
  pose proof (f_equal (fun d => d !! "explanation") Hd) as He.
  pose proof (f_equal (fun d => d !! "category") Hd) as Hg.
  pose proof (f_equal (fun d => d !! "points") Hd) as Hp.
  cbv beta in Hc, He, Hg, Hp.
  rewrite !list_to_map_lookup_assoc in Hc, He, Hg, Hp.
  change (Some (JString (code rc1)) = Some (JString (code rc2))) in Hc.
  change (Some (JString (explanation rc1)) = Some (JString (explanation rc2))) in He.
  change (Some (JString (category rc1)) = Some (JString (category rc2))) in Hg.
  change (Some (JInt (points rc1)) = Some (JInt (points rc2))) in Hp.
  destruct rc1, rc2. cbn [code explanation category points] in *. congruence.
Qed.

Lemma reason_codes_to_json_inj_witness :
  [reason_for "SENS-UNK" "sensitivity" 10] = [reason_for "SENS-UNK" "sensitivity" 10].
Proof.
  apply (reason_codes_to_json_inj
           [reason_for "SENS-UNK" "sensitivity" 10] [reason_for "SENS-UNK" "sensitivity" 10]).
  reflexivity.
Defined.

Lemma reason_codes_to_json_take n rcs :
  take n (reason_codes_to_json rcs) = reason_codes_to_json (take n rcs).
Proof.
  unfold reason_codes_to_json. revert n.
  induction rcs as [|rc rcs IH]; intros [|n]; cbn [map take]; try done.
  by rewrite IH.
Qed.

(** ** The tier enumeration *)

Lemma RiskTier_call_determine score :
  Models.RiskTier_call (determine_risk_tier score) = Done (Models.from_score score).
Proof.
  unfold determine_risk_tier, Models.from_score.
  repeat match goal with
         | |- context [(?x <=? ?y)%Z] => destruct (x <=? y)%Z
         end; reflexivity.
Qed.

(** X14. The two tier mappings agree: the string [determine_risk_tier]
    gives for a score is the value of the member [RiskTier.from_score]
    gives for it, so [RiskTier(determine_risk_tier(score))] raises nothing
    and is that member. *)
Theorem tier_mappings_agree (score : Z) :
  Models.RiskTier_call (determine_risk_tier score) = Done (Models.from_score score) /\
  Models.value (Models.from_score score) = determine_risk_tier score.
Proof.
  split; [apply RiskTier_call_determine|].
  unfold determine_risk_tier, Models.from_score.
  repeat match goal with
         | |- context [(?x <=? ?y)%Z] => destruct (x <=? y)%Z
         end; reflexivity.
Qed.

(** ** The stored row *)

Lemma submit_assessment_row_eq sid uid a r :
  calculate_risk_score a = Returned r ->
  risk_tier r = determine_risk_tier (total r) ->
  submit_assessment_row sid uid a =
    Done {| Models.system_id := sid;
            Models.assessed_by_id := uid;
            Models.answers_json := model_dump a;
            Models.score_total := total r;
            Models.score_breakdown_json := breakdown r;
            Models.reason_codes_json := reason_codes_to_json (reason_codes r);
            Models.risk_tier := Models.from_score (total r) |}.
Proof.
  intros Hr Ht. unfold submit_assessment_row. rewrite Hr. cbn [outcome_of mbind PyOutcome_bind].
  rewrite Ht, RiskTier_call_determine. reflexivity.
Qed.

(** X15. [submit_assessment] never fails on the way from the answers to
    the row: neither the engine nor the conversion of the tier raises.
    The row holds the dumped answers, a total between 0 and 100 that is
    the sum of the five entries of the stored breakdown, and the tier
    that [RiskTier.from_score] gives for the stored total. *)
Theorem submit_assessment_row_consistent (sid uid : string) (a : AssessmentAnswers) :
  exists row sens expo sec post int,
    submit_assessment_row sid uid a = Done row /\
    Models.system_id row = sid /\
    Models.assessed_by_id row = uid /\
    Models.answers_json row = model_dump a /\
    Models.risk_tier row = Models.from_score (Models.score_total row) /\
    0 <= Models.score_total row <= 100 /\
    Models.score_breakdown_json row !! "sensitivity" = Some sens /\
    Models.score_breakdown_json row !! "exposure" = Some expo /\
    Models.score_breakdown_json row !! "security_controls" = Some sec /\
    Models.score_breakdown_json row !! "vendor_posture" = Some post /\
    Models.score_breakdown_json row !! "integration_blast_radius" = Some int /\
    Models.score_total row = sens + expo + sec + post + int.
Proof.
  destruct (sensitivity_bounded a) as (s1 & r1 & H1 & B1 & _).
  destruct (exposure_bounded a) as (s2 & r2 & H2 & B2 & _).
  destruct (security_bounded a) as (s3 & r3 & H3 & B3 & _).
  destruct (posture_bounded a) as (s4 & r4 & H4 & B4 & _).
  destruct (integration_bounded a) as (s5 & r5 & H5 & B5 & _).
  pose proof (calculate_risk_score_eq a _ _ _ _ _ _ _ _ _ _ H1 H2 H3 H4 H5) as Hr.
  eexists _, s1, s2, s3, s4, s5.
  split; [exact (submit_assessment_row_eq sid uid a _ Hr eq_refl)|].
  cbn [Models.system_id Models.assessed_by_id Models.answers_json Models.risk_tier
       Models.score_total Models.score_breakdown_json total breakdown].
  repeat (split; [first [reflexivity | lia]|]). lia.
Qed.

Lemma StronglySorted_app_elem {A : Type} (R : A -> A -> Prop) l1 l2 x y :
  StronglySorted R (l1 ++ l2) -> x ∈ l1 -> y ∈ l2 -> R x y.
Proof.
  induction l1 as [|z l1 IH]; intros Hs Hx Hy; [by apply elem_of_nil in Hx|].
  cbn [app] in Hs. apply StronglySorted_inv in Hs as [Hs Hz].
  apply elem_of_cons in Hx as [->|Hx]; [|by apply IH].
  rewrite Forall_forall in Hz. apply Hz. apply elem_of_app. by right.
Qed.

Lemma top_reason_codes_take row :
  Models.top_reason_codes row = take 5 (Models.reason_codes_json row).
Proof. unfold Models.top_reason_codes. by destruct (Models.reason_codes_json row). Qed.

(** X16. The top reason codes of a stored row are the serialization of
    the first five reason codes of the result, at most five, and no
    reason code left out carries more points than one that is kept. *)
Theorem top_reason_codes_are_highest (sid uid : string) (a : AssessmentAnswers) :
  exists row r,
    submit_assessment_row sid uid a = Done row /\
    calculate_risk_score a = Returned r /\
    Models.top_reason_codes row = reason_codes_to_json (take 5 (reason_codes r)) /\
    (length (Models.top_reason_codes row) <= 5)%nat /\
    (forall kept left_out,
       kept ∈ take 5 (reason_codes r) -> left_out ∈ drop 5 (reason_codes r) ->
       points left_out <= points kept).
Proof.
  destruct (sensitivity_bounded a) as (s1 & r1 & H1 & _).
  destruct (exposure_bounded a) as (s2 & r2 & H2 & _).
  destruct (security_bounded a) as (s3 & r3 & H3 & _).
  destruct (posture_bounded a) as (s4 & r4 & H4 & _).
  destruct (integration_bounded a) as (s5 & r5 & H5 & _).
  pose proof (calculate_risk_score_eq a _ _ _ _ _ _ _ _ _ _ H1 H2 H3 H4 H5) as Hr.
  eexists _, _.
  split; [exact (submit_assessment_row_eq sid uid a _ Hr eq_refl)|].
  split; [exact Hr|].
  rewrite top_reason_codes_take. cbn [Models.reason_codes_json reason_codes].
  rewrite reason_codes_to_json_take.
  split; [reflexivity|]. split.
  - unfold reason_codes_to_json. rewrite length_map, length_take. lia.
  - intros kept left_out Hk Hl.
    eapply (StronglySorted_app_elem (key_ge points)); [|exact Hk|exact Hl].
    rewrite take_drop. apply sort_key_reverse_sorted.
Qed.

(** ** Sensitive data types *)

Lemma sensitive_types_points k :
  k ∈ Models.sensitive_types <-> 6 <= dict_get DATA_TYPE_POINTS k 0.
Proof.
  split.
  - unfold Models.sensitive_types. rewrite !elem_of_union, !elem_of_singleton.
    intros H. repeat destruct H as [H|H]; subst k; by vm_compute.
  - rewrite DATA_TYPE_POINTS_get.
    unfold sensitivity_points, sensitivity_points_table. cbn [assoc].
    repeat match goal with
           | |- context [k == ?s] =>
               destruct (String.eqb_spec k s) as [->|?];
               [cbn [default]; intros ?; first [lia | by apply (bool_decide_unpack _)]|]
           end.
    cbn [default]. lia.
Qed.

Lemma row_data_types a :
  dict_get (model_dump a) "data_types" (AList []) = AList (data_types a).
Proof. unfold dict_get, model_dump. by rewrite list_to_map_lookup_assoc. Qed.

Lemma has_sensitive_data_row sid uid a r :
  Models.has_sensitive_data
    {| Models.system_id := sid;
       Models.assessed_by_id := uid;
       Models.answers_json := model_dump a;
       Models.score_total := total r;
       Models.score_breakdown_json := breakdown r;
       Models.reason_codes_json := reason_codes_to_json (reason_codes r);
       Models.risk_tier := Models.from_score (total r) |} =
  Done (bool_decide (list_to_set (data_types a) ∩ Models.sensitive_types ≠ (∅ : gset string))).
Proof.
  unfold Models.has_sensitive_data, Models.data_types. cbn [Models.answers_json].
  by rewrite row_data_types.
Qed.

Lemma sensitive_entry_iff (ks : list string) :
  list_to_set ks ∩ Models.sensitive_types ≠ (∅ : gset string) <->
  exists k, k ∈ ks /\ 6 <= dict_get DATA_TYPE_POINTS k 0.
Proof.
  split.
  - intros [k Hk]%set_choose_L. apply elem_of_intersection in Hk as [Hk Hs].
    exists k. split; [by apply elem_of_list_to_set in Hk | by apply sensitive_types_points].
  - intros (k & Hk & Hp). apply (non_empty_inhabited_L k).
    apply elem_of_intersection. split; [by apply elem_of_list_to_set|].
    by apply sensitive_types_points.
Qed.

(** X17. For a stored row, [has_sensitive_data] raises nothing and holds
    exactly when some entry of the answers' [data_types] is worth 6 points
    or more in the scoring table: the set of sensitive types of the model
    is the high-sensitivity group of [DATA_TYPE_POINTS]. *)
Theorem has_sensitive_data_iff_high_points (sid uid : string) (a : AssessmentAnswers) :
  exists row b,
    submit_assessment_row sid uid a = Done row /\
    Models.has_sensitive_data row = Done b /\
    (b = true <-> exists k, k ∈ data_types a /\ 6 <= dict_get DATA_TYPE_POINTS k 0).
Proof.
  destruct (calculate_risk_score_returns a) as [r Hr].
  assert (Ht : risk_tier r = determine_risk_tier (total r)).
  { unfold calculate_risk_score in Hr.
    destruct (calculate_sensitivity_score a) as [[? ?]|]; [|done].
    destruct (calculate_exposure_score a) as [[? ?]|]; [|done].
    destruct (calculate_security_score a) as [[? ?]|]; [|done].
    destruct (calculate_posture_score a) as [[? ?]|]; [|done].
    destruct (calculate_integration_score a) as [[? ?]|]; [|done].
    by injection Hr as <-. }
  eexists _, _.
  split; [exact (submit_assessment_row_eq sid uid a r Hr Ht)|].
  split; [apply has_sensitive_data_row|].
  rewrite bool_decide_eq_true. apply sensitive_entry_iff.
Qed.

Lemma sum_sensitivity_points_elem k ks :
  k ∈ ks -> sensitivity_points k <= sum_sensitivity_points ks.
Proof.
  intros Hk. induction ks as [|x ks IH]; [by apply elem_of_nil in Hk|].
  unfold sum_sensitivity_points in *. cbn [foldr].
  pose proof (sensitivity_points_nonneg x).
  pose proof (sum_sensitivity_points_nonneg ks) as Hks. unfold sum_sensitivity_points in Hks.
  apply elem_of_cons in Hk as [->|Hk]; [lia|]. specialize (IH Hk). lia.
Qed.

(** X18. When the data types are not flagged unknown, a stored row with
    sensitive data has a sensitivity entry of at least 6 in its breakdown
    and a total of at least 6. *)
Theorem sensitive_data_scores_at_least_6 (sid uid : string) (a : AssessmentAnswers) :
  data_types_unknown a = false ->
  exists row sens,
    submit_assessment_row sid uid a = Done row /\
    Models.score_breakdown_json row !! "sensitivity" = Some sens /\
    (Models.has_sensitive_data row = Done true ->
     6 <= sens /\ 6 <= Models.score_total row).
Proof.
  intros Hu.
  destruct (sensitivity_bounded a) as (s1 & r1 & H1 & B1 & _).
  destruct (exposure_bounded a) as (s2 & r2 & H2 & B2 & _).
  destruct (security_bounded a) as (s3 & r3 & H3 & B3 & _).
  destruct (posture_bounded a) as (s4 & r4 & H4 & B4 & _).
  destruct (integration_bounded a) as (s5 & r5 & H5 & B5 & _).
  pose proof (calculate_risk_score_eq a _ _ _ _ _ _ _ _ _ _ H1 H2 H3 H4 H5) as Hr.
  eexists _, s1.
  split; [exact (submit_assessment_row_eq sid uid a _ Hr eq_refl)|].
  split; [reflexivity|].
  rewrite has_sensitive_data_row. intros [= Hb].
  apply bool_decide_eq_true, sensitive_entry_iff in Hb as (k & Hk & Hp).
  rewrite DATA_TYPE_POINTS_get in Hp.
  pose proof (sum_sensitivity_points_elem k _ Hk) as Hsum.
  rewrite calculate_sensitivity_score_eq, Hu in H1. injection H1 as <- <-.
  cbn [Models.score_total total]. lia.
Qed.

Lemma sensitive_data_scores_at_least_6_witness :
  exists row sens,
    submit_assessment_row "system" "user" (answers_with_data_types ["health"] false) =
      Done row /\
    Models.score_breakdown_json row !! "sensitivity" = Some sens /\
    (Models.has_sensitive_data row = Done true ->
     6 <= sens /\ 6 <= Models.score_total row).
Proof.
  apply (sensitive_data_scores_at_least_6 "system" "user"
           (answers_with_data_types ["health"] false)).
  reflexivity.
Defined.

(** ** The catalogue of data types *)

(** X19. Every data type the wizard offers in [DATA_TYPES] has at least
    one point in [DATA_TYPE_POINTS], so none is ignored by the scorer; the
    scoring table has one key more, [discipline], which the wizard does
    not offer. *)
Theorem offered_data_types_are_scored (k : string) :
  (is_Some (DATA_TYPES !! k) -> 1 <= dict_get DATA_TYPE_POINTS k 0) /\
  (is_Some (DATA_TYPE_POINTS !! k) <-> is_Some (DATA_TYPES !! k) \/ k = "discipline") /\
  DATA_TYPES !! "discipline" = None.
Proof.
  split; [|split; [|by vm_compute]].
  - unfold DATA_TYPES. rewrite list_to_map_lookup_assoc. cbn [assoc].
    repeat match goal with
           | |- context [k == ?s] =>
               destruct (String.eqb_spec k s) as [->|?]; [intros _; by vm_compute|]
           end.
    by intros [? ?].
  - unfold DATA_TYPE_POINTS, DATA_TYPES. rewrite !list_to_map_lookup_assoc. cbn [assoc].
    repeat match goal with
           | |- context [k == ?s] =>
               destruct (String.eqb_spec k s) as [->|?];
               [split; intros _;
                first [by eexists | left; by eexists | right; reflexivity]|]
           end.
    split; [by intros [? ?] | intros [[? ?]|?]; done].
Qed.

(** ** The highest total *)

(** X20. No answer set totals more than 97: the posture scorer cannot
    add more than 12 of its 15.  The answers of the test suite's worst
    case reach 97, in the "Critical" tier. *)
Theorem total_at_most_97 (a : AssessmentAnswers) :
  (exists r, calculate_risk_score a = Returned r /\ total r <= 97) /\
  (exists r,
     calculate_risk_score maximally_bad_answers = Returned r /\
     total r = 97 /\ risk_tier r = "Critical").
Proof.
  split.
  - destruct (sensitivity_bounded a) as (s1 & r1 & H1 & B1 & _).
    destruct (exposure_bounded a) as (s2 & r2 & H2 & B2 & _).
    destruct (security_bounded a) as (s3 & r3 & H3 & B3 & _).
    destruct (posture_ledger a) as (d4 & r4 & H4 & _ & B4 & _).
    destruct (integration_bounded a) as (s5 & r5 & H5 & B5 & _).
    eexists.
    split; [exact (calculate_risk_score_eq a _ _ _ _ _ _ _ _ _ _ H1 H2 H3 H4 H5)|].
    cbn [total]. lia.
  - eexists. split; [vm_compute; reflexivity|]. by vm_compute.
Qed.
